(** * Pipedrive MCP server: the tool handlers of [src/index.ts]

    A shallow embedding of the tool handlers registered with [server.tool]
    and of the fragment of JavaScript they rely on: loosely typed response
    values, property access that throws on [null] and [undefined], optional
    chaining, truthiness, conversion to strings (which throws on some
    objects), [try]/[catch], and awaiting upstream calls.

    The upstream (the Pipedrive SDK clients and the raw [fetch] of the
    stages endpoint) is an arbitrary, possibly stateful oracle: a function
    from a call and a state of the world to a reply and a new state.  Every
    awaited call is recorded, with its reply, in a trace.  A handler
    returns a result or throws, which rejects the promise it stands for.

    Of the logging, what can throw is kept: the conversions to strings
    inside template literals and the calls of [JSON.stringify] on an error.
    [console.log], [console.warn] and [console.error] themselves, the
    latter also when handed the error as a second argument, are taken to
    return. *)

From Stdlib Require Import ZArith NArith List String Ascii Bool Lia DecimalString.
Import ListNotations.
Local Open Scope string_scope.
Local Open Scope Z_scope.
Local Open Scope list_scope.

#[local] Set Warnings "-register-all".

(** ** JavaScript values *)

Module JS.

(** The values the handlers see in responses and build in their payloads:
    what [JSON.parse] yields, and [undefined].  Numbers are the
    integer-valued ones that JavaScript prints in plain decimal (offsets,
    identifiers, lengths).  An object is its list of own properties in the
    order JavaScript enumerates them, looked up by first binding.  A string is given by its
    UTF-8 bytes.  Values are finite trees: no cycles, no functions. *)
Inductive value : Type :=
| undefined
| null
| Bool (b : bool)
| Num (n : Z)
| Str (s : string)
| Arr (elements : list value)
| Obj (props : list (string * value)).

(** [if (v)], [v || w], [v && w], [!v]. *)
Definition truthy (v : value) : bool :=
  match v with
  | undefined | null => false
  | Bool b => b
  | Num n => negb (n =? 0)
  | Str s => negb (String.eqb s "")
  | Arr _ | Obj _ => true
  end.

Definition nullish (v : value) : bool :=
  match v with
  | undefined | null => true
  | _ => false
  end.

(** [Array.isArray(v)] *)
Definition isArray (v : value) : bool :=
  match v with
  | Arr _ => true
  | _ => false
  end.

Definition elements_of (v : value) : list value :=
  match v with
  | Arr l => l
  | _ => []
  end.

(** [v || w] *)
Definition logical_or (v w : value) : value := if truthy v then v else w.

Fixpoint lookup (k : string) (props : list (string * value)) : option value :=
  match props with
  | [] => None
  | (k', v) :: rest => if String.eqb k k' then Some v else lookup k rest
  end.

(** [String(n)] for an integer-valued number. *)
Definition Number_toString (n : Z) : string :=
  NilZero.string_of_int (Z.to_int n).

Definition length_of {A} (l : list A) : value := Num (Z.of_nat (List.length l)).

(** *** Strings as JavaScript sees them

    A JavaScript string is a sequence of UTF-16 code units; [for ... of]
    walks it by code point.  Both are read off the UTF-8 bytes: a code
    point is a lead byte with the continuation bytes after it, and a code
    point of four bytes takes two code units, a pair of surrogates (each
    written here with the three bytes of its own code). *)
Definition continuation (c : ascii) : bool :=
  ((128 <=? N_of_ascii c) && (N_of_ascii c <? 192))%N.

Fixpoint split_code_points (s : string) : string * list string :=
  match s with
  | EmptyString => (EmptyString, [])
  | String c rest =>
      let (pending, done) := split_code_points rest in
      if continuation c then (String c pending, done)
      else (EmptyString, String c pending :: done)
  end.

Definition code_points (s : string) : list string :=
  let (pending, done) := split_code_points s in
  match pending with
  | EmptyString => done
  | _ => pending :: done
  end.

Definition three_bytes (x : N) : string :=
  String (ascii_of_N (224 + x / 4096))
    (String (ascii_of_N (128 + (x / 64) mod 64))
       (String (ascii_of_N (128 + x mod 64)) EmptyString)).

Definition code_units (point : string) : list string :=
  match point with
  | String b0 (String b1 (String b2 (String b3 EmptyString))) =>
      if (240 <=? N_of_ascii b0)%N then
        let u := ((N_of_ascii b0 mod 8) * 262144 + (N_of_ascii b1 mod 64) * 4096
                  + (N_of_ascii b2 mod 64) * 64 + N_of_ascii b3 mod 64 - 65536)%N in
        [three_bytes (55296 + u / 1024); three_bytes (56320 + u mod 1024)]
      else [point]
  | _ => [point]
  end.

Definition utf16_units (s : string) : list string :=
  flat_map code_units (code_points s).

(** [v.k] for a [v] that is neither [null] nor [undefined].  The handlers
    only read fixed, named properties; of the properties arrays and strings
    inherit, [length] is the only one they read. *)
Definition get_prop (v : value) (k : string) : value :=
  match v with
  | Obj props =>
      match lookup k props with
      | Some x => x
      | None => undefined
      end
  | Arr l => if String.eqb k "length" then length_of l else undefined
  | Str s => if String.eqb k "length" then length_of (utf16_units s) else undefined
  | _ => undefined
  end.

(** [v?.k] *)
Definition opt_chain (v : value) (k : string) : value :=
  if nullish v then undefined else get_prop v k.

Fixpoint all_some {A} (l : list (option A)) : option (list A) :=
  match l with
  | [] => Some []
  | Some a :: rest =>
      match all_some rest with
      | Some done => Some (a :: done)
      | None => None
      end
  | None :: _ => None
  end.

(** [String(v)], also the conversion inside a template literal; [None]
    where it throws a [TypeError].  An object is printed by the [toString]
    it inherits, unless a property of its own named [toString] hides it:
    in these values that property is never a function, and the conversion
    throws.  An array prints its elements, joined by commas. *)
Fixpoint ToString (v : value) : option string :=
  match v with
  | undefined => Some "undefined"
  | null => Some "null"
  | Bool true => Some "true"
  | Bool false => Some "false"
  | Num n => Some (Number_toString n)
  | Str s => Some s
  | Arr l =>
      option_map (String.concat ",")
        (all_some (map (fun x => match x with
                                 | undefined | null => Some ""
                                 | _ => ToString x
                                 end) l))
  | Obj props =>
      match lookup "toString" props with
      | Some _ => None
      | None => Some "[object Object]"
      end
  end.

Definition printable (v : value) : bool :=
  match ToString v with
  | Some _ => true
  | None => false
  end.

(** The own enumerable properties copied by an object spread [{...v}]. *)
Definition index_keys (n : nat) : list string :=
  map (fun i => Number_toString (Z.of_nat i)) (seq 0 n).

Definition own_props (v : value) : list (string * value) :=
  match v with
  | Obj props => props
  | Arr l => combine (index_keys (List.length l)) l
  | Str s => combine (index_keys (List.length (utf16_units s))) (map Str (utf16_units s))
  | _ => []
  end.

(** Defining property [k] in an object literal: an existing binding keeps
    its place and takes the new value, a new one goes last. *)
Fixpoint set_prop (k : string) (x : value) (props : list (string * value))
  : list (string * value) :=
  match props with
  | [] => [(k, x)]
  | (k', v) :: rest =>
      if String.eqb k k' then (k, x) :: rest else (k', v) :: set_prop k x rest
  end.

(** *** What is thrown

    A promise can be rejected with anything.  [Thrown v] is a value as
    above.  [Thrown_object props printed failure] is any other object, an
    [Error] instance for one, described by what the handlers can observe of
    it: the properties read off it; what [String] makes of it, a string or
    what the conversion throws; and what [JSON.stringify] throws on it, if
    anything (a [TypeError] when the object holds a reference cycle). *)
Inductive thrown : Type :=
| Thrown (v : value)
| Thrown_object (props : list (string * value)) (printed : string + thrown)
    (failure : option thrown).

(** [new Error(message)] and the errors the runtime raises. *)
Definition Error (message : string) : thrown :=
  Thrown_object [("message", Str message)] (inl ("Error: " ++ message)%string) None.

Definition TypeError (message : string) : thrown :=
  Thrown_object [("message", Str message)] (inl ("TypeError: " ++ message)%string) None.

Definition RangeError (message : string) : thrown :=
  Thrown_object [("message", Str message)] (inl ("RangeError: " ++ message)%string) None.

Definition nullish_name (v : value) : string :=
  match v with
  | null => "null"
  | _ => "undefined"
  end.

(** The errors of reading property [k] of [null] or [undefined], of
    converting an object that cannot be printed, of serialising an object
    that holds a cycle, and of spreading more arguments than a call can
    take (messages as V8 words them, the third as it begins). *)
Definition cannot_read (v : value) (k : string) : thrown :=
  TypeError ("Cannot read properties of " ++ nullish_name v ++ " (reading '" ++ k ++ "')").

Definition cannot_convert : thrown :=
  TypeError "Cannot convert object to primitive value".

Definition not_serialisable : thrown :=
  TypeError "Converting circular structure to JSON".

Definition too_many_arguments : thrown :=
  RangeError "Maximum call stack size exceeded".

(** What [JSON.stringify(e, null, 2)] throws, if anything: nothing on a
    value, which is a finite tree. *)
Definition stringify_failure (e : thrown) : option thrown :=
  match e with
  | Thrown _ => None
  | Thrown_object _ _ failure => failure
  end.

Definition serialisable (e : thrown) : bool :=
  match stringify_failure e with
  | None => true
  | Some _ => false
  end.

(** [String(e)]: the string, or what the conversion throws. *)
Definition String_thrown (e : thrown) : string + thrown :=
  match e with
  | Thrown v =>
      match ToString v with
      | Some s => inl s
      | None => inr cannot_convert
      end
  | Thrown_object _ printed _ => printed
  end.

End JS.

Import JS.

(** ** Error messages *)

(** [isErrorWithMessage]: an object, not [null], with a [message] property
    that is a string.  ([typeof] is ["object"] for arrays too, but an array
    has no [message].) *)
Definition isErrorWithMessage (error : thrown) : bool :=
  match error with
  | Thrown (Obj props) | Thrown_object props _ _ =>
      match lookup "message" props with
      | Some (Str _) => true
      | _ => false
      end
  | _ => false
  end.

(** [error.message] of an error that has one. *)
Definition message_of (error : thrown) : string :=
  match error with
  | Thrown (Obj props) | Thrown_object props _ _ =>
      match lookup "message" props with
      | Some (Str message) => message
      | _ => EmptyString
      end
  | _ => EmptyString
  end.

(** [getErrorMessage]: the message, or what [String(error)] throws. *)
Definition getErrorMessage (error : thrown) : string + thrown :=
  if isErrorWithMessage error then inl (message_of error) else String_thrown error.

(** ** The upstream *)

(** [status] of get-deals: [z.enum([...])]. *)
Inductive deal_status : Type :=
| open | won | lost | deleted | all_not_deleted.

Definition status_name (s : deal_status) : string :=
  match s with
  | open => "open"
  | won => "won"
  | lost => "lost"
  | deleted => "deleted"
  | all_not_deleted => "all_not_deleted"
  end.

(** The awaited calls, one constructor per call site.  [fetch_json url] is
    [fetch(url)] followed by [.json()] on the response: it resolves to the
    parsed body, or is rejected when either step is.  Identifiers are the
    integers that JavaScript prints in plain decimal. *)
Inductive call : Type :=
| getDeals (start limit : Z) (status : string)
| getDeal (id : Z)
| getDealChangelog (id : Z) (cursor : value) (limit : value)
| searchDeals (term : string)
| getPersons (start limit : Z)
| getPerson (id : Z)
| searchPersons (term : string)
| getOrganizations (start limit : Z)
| getOrganization (id : Z)
| searchOrganization (term : string)
| getPipelines
| getPipeline (id : Z)
| fetch_json (url : string)
| searchLeads (term : string)
| searchItem (term : string) (item_types : option string).

(** What an awaited promise settles to. *)
Inductive reply : Type :=
| Resolved (response : value)
| Rejected (error : thrown).

Definition event : Type := call * reply.

(** ** Tool results *)

(** The [text] of a content item: the string [JSON.stringify(v, null, 2)],
    kept as the value it serialises, or a string built by a template. *)
Inductive text_payload : Type :=
| JSON_stringify (v : value)
| Template (s : string).

Record content_item : Type := { type : string; text : text_payload }.

(** [isError] is [None] where the result has no such property. *)
Record tool_result : Type := { content : list content_item; isError : option bool }.

Definition text_result (t : text_payload) : tool_result :=
  {| content := [{| type := "text"; text := t |}]; isError := None |}.

Definition error_result (message : string) : tool_result :=
  {| content := [{| type := "text"; text := Template message |}];
     isError := Some true |}.

(** ** Handlers *)

(** A computation returns, throws, or is cut off by the bound put on the
    iterations of its [while] loops.  A handler that throws stands for a
    promise that is rejected: the fault leaves the handler. *)
Inductive outcome (A : Type) : Type :=
| Returns (a : A)
| Throws (e : thrown)
| OutOfFuel.
Arguments Returns {A} a.
Arguments Throws {A} e.
Arguments OutOfFuel {A}.

Section Handlers.

Variable World : Type.

(** The upstream: how a call is answered in a state of the world, and the
    state it leaves. *)
Variable upstream : call -> World -> reply * World.

(** [process.env.PIPEDRIVE_API_TOKEN] (the process exits at start-up when
    it is not set). *)
Variable PIPEDRIVE_API_TOKEN : string.

(** The number of arguments the engine lets a call spread, as in
    [push(...items)]: beyond it the call throws a [RangeError]. *)
Variable max_arguments : nat.

(** The state a handler runs in: the world, and the calls awaited so far
    with their replies, oldest first. *)
Record state : Type := { world : World; trace : list event }.

Definition M (A : Type) : Type := state -> outcome A * state.

Definition ret {A} (a : A) : M A := fun st => (Returns a, st).

Definition throw {A} (e : thrown) : M A := fun st => (Throws e, st).

Definition out_of_fuel {A} : M A := fun st => (OutOfFuel, st).

Definition bind {A B} (m : M A) (k : A -> M B) : M B :=
  fun st =>
    match m st with
    | (Returns a, st') => k a st'
    | (Throws e, st') => (Throws e, st')
    | (OutOfFuel, st') => (OutOfFuel, st')
    end.

(** [try { body } catch (error) { handler }] *)
Definition try_catch {A} (body : M A) (handler : thrown -> M A) : M A :=
  fun st =>
    match body st with
    | (Throws e, st') => handler e st'
    | r => r
    end.

(** [await] of an upstream call: a rejection is thrown. *)
Definition await (c : call) : M value :=
  fun st =>
    let (r, w) := upstream c (world st) in
    let st' := {| world := w; trace := trace st ++ [(c, r)] |} in
    match r with
    | Resolved response => (Returns response, st')
    | Rejected error => (Throws error, st')
    end.

(** [v.k]: a [TypeError] when [v] is [null] or [undefined]. *)
Definition member (v : value) (k : string) : M value :=
  if nullish v then throw (cannot_read v k) else ret (get_prop v k).

(** [`${v}`], as in the lines that log: a [TypeError] when [v] cannot be
    printed. *)
Definition to_string (v : value) : M string :=
  match ToString v with
  | Some s => ret s
  | None => throw cannot_convert
  end.

(** [getErrorMessage(error)] where it is called. *)
Definition error_message (error : thrown) : M string :=
  match getErrorMessage error with
  | inl message => ret message
  | inr e => throw e
  end.

(** [JSON.stringify(error, null, 2)] *)
Definition stringify_error (error : thrown) : M unit :=
  match stringify_failure error with
  | None => ret tt
  | Some e => throw e
  end.

(** The arguments of [push(...items)]. *)
Definition spread (items : list value) : M (list value) :=
  if (List.length items <=? max_arguments)%nat then ret items
  else throw too_many_arguments.

Local Notation "x <- c ;; k" := (bind c (fun x => k))
  (at level 61, c at next level, right associativity).

(** *** The pagination loop

    The handlers of get-deals, get-persons and get-organizations repeat one
    loop, each on its own endpoint.  It is embedded once, over the endpoint
    [fetch]; [count_only] is the argument of get-deals, absent from the
    other two, which always collect ([allItems] is their [allDeals],
    [allPersons], [allOrganizations]).  Console output is not modelled: of
    the lines that log, those are kept that can throw, in the order of the
    source, which is the same in the three handlers: [response.success],
    then [response.data?.length || 0], and [hasMore] once it is set. *)

(** [const limit = 500] *)
Definition limit : Z := 500.

Record loop_state : Type := {
  start : Z;
  hasMore : value;
  pageCount : Z;
  allItems : list value
}.

(** Truthiness of an optional boolean argument. *)
Definition given (flag : option bool) : bool :=
  match flag with
  | Some b => b
  | None => false
  end.

Definition more_items_in_collection (additionalData : value) : value :=
  opt_chain (opt_chain additionalData "pagination") "more_items_in_collection".

(** One pass through the body of [while (hasMore)]: the state it leaves and
    whether it left through [break]. *)
Definition page (fetch : Z -> Z -> call) (count_only : option bool)
    (s : loop_state) : M (loop_state * bool) :=
  response <- await (fetch (start s) limit) ;;
  success <- member response "success" ;;
  _ <- to_string success ;;
  data <- member response "data" ;;
  _ <- to_string (logical_or (opt_chain data "length") (Num 0)) ;;
  all <- (if truthy data && isArray data
          then if negb (given count_only)
               then items <- spread (elements_of data) ;; ret (allItems s ++ items)
               else ret (allItems s)
          else ret (allItems s)) ;;
  additionalData <- member response "additional_data" ;;
  let hasMore' := logical_or (more_items_in_collection additionalData) (Bool false) in
  _ <- to_string hasMore' ;;
  let start' := if truthy hasMore' then start s + limit else start s in
  ret ({| start := start'; hasMore := hasMore';
          pageCount := pageCount s + 1; allItems := all |},
       10000 <=? start').

Fixpoint while_hasMore (fuel : nat) (fetch : Z -> Z -> call)
    (count_only : option bool) (s : loop_state) : M loop_state :=
  if truthy (hasMore s) then
    match fuel with
    | O => out_of_fuel
    | S fuel' =>
        r <- page fetch count_only s ;;
        if snd r then ret (fst r) else while_hasMore fuel' fetch count_only (fst r)
    end
  else ret s.

Definition loop_init : loop_state :=
  {| start := 0; hasMore := Bool true; pageCount := 0; allItems := [] |}.

(** *** get-deals *)

(** [status || 'all_not_deleted'] *)
Definition status_filter (status : option deal_status) : string :=
  match status with
  | Some s => status_name s
  | None => "all_not_deleted"
  end.

Definition deals_result (status : option deal_status) (count_only : option bool)
    (s : loop_state) : tool_result :=
  let totalCount := if given count_only then start s else Z.of_nat (List.length (allItems s)) in
  if given count_only then
    text_result (JSON_stringify (Obj [
      ("total_count", Num totalCount);
      ("status_filter", Str (status_filter status));
      ("message", Str ("Found " ++ Number_toString totalCount ++ " deals"))]))
  else
    text_result (JSON_stringify (Obj [
      ("total_count", length_of (allItems s));
      ("status_filter", Str (status_filter status));
      ("deals", Arr (allItems s))])).

(** The catch block logs [JSON.stringify(error, null, 2)] before it builds
    its result. *)
Definition get_deals (fuel : nat) (status : option deal_status)
    (count_only : option bool) : M tool_result :=
  try_catch
    (s <- while_hasMore fuel
            (fun start limit => getDeals start limit (status_filter status))
            count_only loop_init ;;
     ret (deals_result status count_only s))
    (fun error =>
       _ <- stringify_error error ;;
       message <- error_message error ;;
       ret (error_result ("Error fetching deals: " ++ message))).

(** *** get-deal, get-deal-history, search-deals *)

Definition get_deal (dealId : Z) : M tool_result :=
  try_catch
    (response <- await (getDeal dealId) ;;
     data <- member response "data" ;;
     ret (text_result (JSON_stringify data)))
    (fun error =>
       message <- error_message error ;;
       ret (error_result ("Error fetching deal " ++ Number_toString dealId ++ ": "
                          ++ message))).

(** An optional number argument as the value the handler sees. *)
Definition optional (n : option Z) : value :=
  match n with
  | Some n => Num n
  | None => undefined
  end.

Definition history_result (dealId : Z) (data additional_data : value) : value :=
  Obj [("deal_id", Num dealId);
       ("history_count", logical_or (opt_chain data "length") (Num 0));
       ("next_cursor", logical_or (opt_chain additional_data "next_cursor") null);
       ("history", logical_or data (Arr []))].

(** The two lines that log after the call print the number of entries and,
    when there is one, the cursor. *)
Definition get_deal_history (dealId : Z) (limit : option Z) : M tool_result :=
  try_catch
    (response <- await (getDealChangelog dealId undefined
                          (logical_or (optional limit) (Num 100))) ;;
     data <- member response "data" ;;
     _ <- to_string (logical_or (opt_chain data "length") (Num 0)) ;;
     additional_data <- member response "additional_data" ;;
     _ <- (if truthy (opt_chain additional_data "next_cursor")
           then to_string (opt_chain additional_data "next_cursor")
           else ret "") ;;
     ret (text_result (JSON_stringify (history_result dealId data additional_data))))
    (fun error =>
       message <- error_message error ;;
       ret (error_result ("Error fetching deal " ++ Number_toString dealId ++ " history: "
                          ++ message))).

Definition search_deals (term : string) : M tool_result :=
  try_catch
    (response <- await (searchDeals term) ;;
     data <- member response "data" ;;
     ret (text_result (JSON_stringify data)))
    (fun error =>
       message <- error_message error ;;
       ret (error_result ("Error searching deals: " ++ message))).

(** *** get-persons, get-person, search-persons *)

Definition persons_result (s : loop_state) : tool_result :=
  text_result (JSON_stringify (Obj [
    ("total_count", length_of (allItems s));
    ("persons", Arr (allItems s))])).

Definition get_persons (fuel : nat) : M tool_result :=
  try_catch
    (s <- while_hasMore fuel getPersons None loop_init ;;
     ret (persons_result s))
    (fun error =>
       message <- error_message error ;;
       ret (error_result ("Error fetching persons: " ++ message))).

Definition get_person (personId : Z) : M tool_result :=
  try_catch
    (response <- await (getPerson personId) ;;
     data <- member response "data" ;;
     ret (text_result (JSON_stringify data)))
    (fun error =>
       message <- error_message error ;;
       ret (error_result ("Error fetching person " ++ Number_toString personId ++ ": "
                          ++ message))).

Definition search_persons (term : string) : M tool_result :=
  try_catch
    (response <- await (searchPersons term) ;;
     data <- member response "data" ;;
     ret (text_result (JSON_stringify data)))
    (fun error =>
       message <- error_message error ;;
       ret (error_result ("Error searching persons: " ++ message))).

(** *** get-organizations, get-organization, search-organizations *)

Definition organizations_result (s : loop_state) : tool_result :=
  text_result (JSON_stringify (Obj [
    ("total_count", length_of (allItems s));
    ("organizations", Arr (allItems s))])).

Definition get_organizations (fuel : nat) : M tool_result :=
  try_catch
    (s <- while_hasMore fuel getOrganizations None loop_init ;;
     ret (organizations_result s))
    (fun error =>
       message <- error_message error ;;
       ret (error_result ("Error fetching organizations: " ++ message))).

Definition get_organization (organizationId : Z) : M tool_result :=
  try_catch
    (response <- await (getOrganization organizationId) ;;
     data <- member response "data" ;;
     ret (text_result (JSON_stringify data)))
    (fun error =>
       message <- error_message error ;;
       ret (error_result ("Error fetching organization "
                          ++ Number_toString organizationId ++ ": " ++ message))).

Definition search_organizations (term : string) : M tool_result :=
  try_catch
    (response <- await (searchOrganization term) ;;
     data <- member response "data" ;;
     ret (text_result (JSON_stringify data)))
    (fun error =>
       message <- error_message error ;;
       ret (error_result ("Error searching organizations: " ++ message))).

(** *** get-pipelines, get-pipeline *)

Definition get_pipelines : M tool_result :=
  try_catch
    (response <- await getPipelines ;;
     data <- member response "data" ;;
     ret (text_result (JSON_stringify data)))
    (fun error =>
       message <- error_message error ;;
       ret (error_result ("Error fetching pipelines: " ++ message))).

Definition get_pipeline (pipelineId : Z) : M tool_result :=
  try_catch
    (response <- await (getPipeline pipelineId) ;;
     data <- member response "data" ;;
     ret (text_result (JSON_stringify data)))
    (fun error =>
       message <- error_message error ;;
       ret (error_result ("Error fetching pipeline " ++ Number_toString pipelineId ++ ": "
                          ++ message))).

(** *** get-stages *)

(** [{...stage, pipeline_name: name}] *)
Definition tag_stage (name stage : value) : value :=
  Obj (set_prop "pipeline_name" name (own_props stage)).

(** The URL of the stages of the pipeline whose [id] prints as [id]. *)
Definition stages_url (id : string) : string :=
  "https://api.pipedrive.com/api/v2/stages?pipeline_id=" ++ id
  ++ "&api_token=" ++ PIPEDRIVE_API_TOKEN.

(** [data.map(f)]: a [TypeError] unless [data] is an array. *)
Definition array_map (what : string) (f : value -> value) (data : value)
  : M (list value) :=
  match data with
  | Arr l => ret (map f l)
  | _ => throw (TypeError (what ++ ".map is not a function"))
  end.

(** The body of [for (const pipeline of pipelines)], with its own
    [try]/[catch]: the stages it pushes onto [allStages].  The catch block
    logs [pipeline.id] again, which throws as it did when that was what
    failed. *)
Definition pipeline_stages (pipeline : value) : M (list value) :=
  try_catch
    (id <- member pipeline "id" ;;
     id' <- to_string id ;;
     stagesData <- await (fetch_json (stages_url id')) ;;
     success <- member stagesData "success" ;;
     if truthy success then
       data <- member stagesData "data" ;;
       if truthy data then
         pipelineStages <-
           array_map "stagesData.data" (tag_stage (get_prop pipeline "name")) data ;;
         spread pipelineStages
       else ret []
     else ret [])
    (fun e =>
       id <- member pipeline "id" ;;
       _ <- to_string id ;;
       ret []).

Fixpoint for_pipelines (pipelines : list value) (allStages : list value)
  : M (list value) :=
  match pipelines with
  | [] => ret allStages
  | pipeline :: rest =>
      pipelineStages <- pipeline_stages pipeline ;;
      for_pipelines rest (allStages ++ pipelineStages)
  end.

(** What [for ... of] iterates over: the elements of an array, the code
    points of a string; anything else is not iterable. *)
Definition iterate (what : string) (v : value) : M (list value) :=
  match v with
  | Arr l => ret l
  | Str s => ret (map Str (code_points s))
  | _ => throw (TypeError (what ++ " is not iterable"))
  end.

Definition get_stages : M tool_result :=
  try_catch
    (pipelinesResponse <- await getPipelines ;;
     data <- member pipelinesResponse "data" ;;
     let pipelines := logical_or data (Arr []) in
     items <- iterate "pipelines" pipelines ;;
     allStages <- for_pipelines items [] ;;
     ret (text_result (JSON_stringify (Arr allStages))))
    (fun error =>
       message <- error_message error ;;
       ret (error_result ("Error fetching stages: " ++ message))).

(** *** search-leads, search-all *)

Definition search_leads (term : string) : M tool_result :=
  try_catch
    (response <- await (searchLeads term) ;;
     data <- member response "data" ;;
     ret (text_result (JSON_stringify data)))
    (fun error =>
       message <- error_message error ;;
       ret (error_result ("Error searching leads: " ++ message))).

Definition search_all (term : string) (itemTypes : option string) : M tool_result :=
  try_catch
    (response <- await (searchItem term itemTypes) ;;
     data <- member response "data" ;;
     ret (text_result (JSON_stringify data)))
    (fun error =>
       message <- error_message error ;;
       ret (error_result ("Error performing search: " ++ message))).

(** *** The registry *)

(** A tool invocation: the registered name with its validated arguments. *)
Inductive invocation : Type :=
| Get_deals (status : option deal_status) (count_only : option bool)
| Get_deal (dealId : Z)
| Get_deal_history (dealId : Z) (limit : option Z)
| Search_deals (term : string)
| Get_persons
| Get_person (personId : Z)
| Search_persons (term : string)
| Get_organizations
| Get_organization (organizationId : Z)
| Search_organizations (term : string)
| Get_pipelines
| Get_pipeline (pipelineId : Z)
| Get_stages
| Search_leads (term : string)
| Search_all (term : string) (itemTypes : option string).

Definition tool_name (i : invocation) : string :=
  match i with
  | Get_deals _ _ => "get-deals"
  | Get_deal _ => "get-deal"
  | Get_deal_history _ _ => "get-deal-history"
  | Search_deals _ => "search-deals"
  | Get_persons => "get-persons"
  | Get_person _ => "get-person"
  | Search_persons _ => "search-persons"
  | Get_organizations => "get-organizations"
  | Get_organization _ => "get-organization"
  | Search_organizations _ => "search-organizations"
  | Get_pipelines => "get-pipelines"
  | Get_pipeline _ => "get-pipeline"
  | Get_stages => "get-stages"
  | Search_leads _ => "search-leads"
  | Search_all _ _ => "search-all"
  end.

(** The handler [server.tool] registered under the invocation's name. *)
Definition handler (fuel : nat) (i : invocation) : M tool_result :=
  match i with
  | Get_deals status count_only => get_deals fuel status count_only
  | Get_deal dealId => get_deal dealId
  | Get_deal_history dealId limit => get_deal_history dealId limit
  | Search_deals term => search_deals term
  | Get_persons => get_persons fuel
  | Get_person personId => get_person personId
  | Search_persons term => search_persons term
  | Get_organizations => get_organizations fuel
  | Get_organization organizationId => get_organization organizationId
  | Search_organizations term => search_organizations term
  | Get_pipelines => get_pipelines
  | Get_pipeline pipelineId => get_pipeline pipelineId
  | Get_stages => get_stages
  | Search_leads term => search_leads term
  | Search_all term itemTypes => search_all term itemTypes
  end.

(** A fresh invocation starts with an empty trace. *)
Definition start_in (w : World) : state := {| world := w; trace := [] |}.

End Handlers.

Arguments world {World} s.
Arguments trace {World} s.
Arguments Build_state {World} world trace.
Arguments start_in {World} w.
Arguments ret {World A} a st.
Arguments throw {World A} e st.
Arguments bind {World A B} m k st.
Arguments try_catch {World A} body handler st.
Arguments await {World} upstream c st.
Arguments member {World} v k st.
Arguments to_string {World} v st.
Arguments error_message {World} error st.
Arguments stringify_error {World} error st.
Arguments spread {World} max_arguments items st.
Arguments page {World} upstream max_arguments fetch count_only s st.
Arguments while_hasMore {World} upstream max_arguments fuel fetch count_only s st.
Arguments get_deals {World} upstream max_arguments fuel status count_only st.
Arguments get_deal {World} upstream dealId st.
Arguments get_deal_history {World} upstream dealId limit st.
Arguments get_persons {World} upstream max_arguments fuel st.
Arguments get_organizations {World} upstream max_arguments fuel st.
Arguments pipeline_stages {World} upstream PIPEDRIVE_API_TOKEN max_arguments pipeline st.
Arguments for_pipelines {World} upstream PIPEDRIVE_API_TOKEN max_arguments pipelines allStages st.
Arguments get_stages {World} upstream PIPEDRIVE_API_TOKEN max_arguments st.
Arguments handler {World} upstream PIPEDRIVE_API_TOKEN max_arguments fuel i st.

(** ** Prompts *)

(** The prompts registered with [server.prompt]: each takes no argument
    and its callback returns a fixed list of messages ([message] is the
    [content] of a message). *)
Record prompt_message : Type := { role : string; message : content_item }.

Record prompt_result : Type := { messages : list prompt_message }.

Inductive prompt : Type :=
| list_all_deals
| list_all_persons
| list_all_pipelines
| analyze_deals
| analyze_contacts
| analyze_leads
| compare_pipelines
| find_high_value_deals.

Definition prompt_name (p : prompt) : string :=
  match p with
  | list_all_deals => "list-all-deals"
  | list_all_persons => "list-all-persons"
  | list_all_pipelines => "list-all-pipelines"
  | analyze_deals => "analyze-deals"
  | analyze_contacts => "analyze-contacts"
  | analyze_leads => "analyze-leads"
  | compare_pipelines => "compare-pipelines"
  | find_high_value_deals => "find-high-value-deals"
  end.

Definition prompt_description (p : prompt) : string :=
  match p with
  | list_all_deals => "List all deals in Pipedrive"
  | list_all_persons => "List all persons in Pipedrive"
  | list_all_pipelines => "List all pipelines in Pipedrive"
  | analyze_deals => "Analyze deals by stage"
  | analyze_contacts => "Analyze contacts by organization"
  | analyze_leads => "Analyze leads by status"
  | compare_pipelines => "Compare different pipelines and their stages"
  | find_high_value_deals => "Find high-value deals"
  end.

Definition prompt_callback (p : prompt) : prompt_result :=
  match p with
  | list_all_deals =>
      {| messages := [{| role := "user"; message := {| type := "text"; text := Template
           "Please list all deals in my Pipedrive account, showing their title, value, status, and stage." |} |}] |}
  | list_all_persons =>
      {| messages := [{| role := "user"; message := {| type := "text"; text := Template
           "Please list all persons in my Pipedrive account, showing their name, email, phone, and organization." |} |}] |}
  | list_all_pipelines =>
      {| messages := [{| role := "user"; message := {| type := "text"; text := Template
           "Please list all pipelines in my Pipedrive account, showing their name and stages." |} |}] |}
  | analyze_deals =>
      {| messages := [{| role := "user"; message := {| type := "text"; text := Template
           "Please analyze the deals in my Pipedrive account, grouping them by stage and providing total value for each stage." |} |}] |}
  | analyze_contacts =>
      {| messages := [{| role := "user"; message := {| type := "text"; text := Template
           "Please analyze the persons in my Pipedrive account, grouping them by organization and providing a count for each organization." |} |}] |}
  | analyze_leads =>
      {| messages := [{| role := "user"; message := {| type := "text"; text := Template
           "Please search for all leads in my Pipedrive account and group them by status." |} |}] |}
  | compare_pipelines =>
      {| messages := [{| role := "user"; message := {| type := "text"; text := Template
           "Please list all pipelines in my Pipedrive account and compare them by showing the stages in each pipeline." |} |}] |}
  | find_high_value_deals =>
      {| messages := [{| role := "user"; message := {| type := "text"; text := Template
           "Please identify the highest value deals in my Pipedrive account and provide information about which stage they're in and which person or organization they're associated with." |} |}] |}
  end.

(** The names under which [server.tool] and [server.prompt] are called, in
    the order of the file. *)
Definition registered_tools : list string :=
  ["get-deals"; "get-deal"; "get-deal-history"; "search-deals";
   "get-persons"; "get-person"; "search-persons";
   "get-organizations"; "get-organization"; "search-organizations";
   "get-pipelines"; "get-pipeline"; "get-stages"; "search-leads"; "search-all"].

Definition registered_prompts : list prompt :=
  [list_all_deals; list_all_persons; list_all_pipelines; analyze_deals;
   analyze_contacts; analyze_leads; compare_pipelines; find_high_value_deals].

(** ** Reading a run of the pagination loop off its trace *)

(** [additional_data?.pagination?.more_items_in_collection] of a page. *)
Definition more_flag (response : value) : value :=
  more_items_in_collection (get_prop response "additional_data").

(** What a page sets [hasMore] to. *)
Definition hasMore_of (response : value) : value :=
  logical_or (more_flag response) (Bool false).

(** [response.data?.length || 0] *)
Definition data_length (response : value) : value :=
  logical_or (opt_chain (get_prop response "data") "length") (Num 0).

(** The items a page adds to the collection: its [data] when that is an
    array, nothing otherwise. *)
Definition page_items (response : value) : list value :=
  let data := get_prop response "data" in
  if truthy data && isArray data then elements_of data else [].

(** A reply whose more-items flag makes the loop advance to the next
    offset. *)
Definition continues (r : reply) : bool :=
  match r with
  | Resolved response => negb (nullish response) && truthy (more_flag response)
  | Rejected _ => false
  end.

(** A reply whose more-items flag makes the loop stop of its own accord. *)
Definition final (r : reply) : bool :=
  match r with
  | Resolved response => negb (nullish response) && negb (truthy (more_flag response))
  | Rejected _ => false
  end.

(** What a reply makes the loop body throw, if anything: the rejection
    itself; the [TypeError] of reading [success] off a response that is
    [null] or [undefined]; that of printing a [success], a length of [data]
    or a more-items flag that cannot be printed; the [RangeError] of
    pushing more items than a call can spread. *)
Definition fault (max_arguments : nat) (count_only : option bool) (r : reply)
  : option thrown :=
  match r with
  | Rejected error => Some error
  | Resolved response =>
      if nullish response then Some (cannot_read response "success")
      else if negb (printable (get_prop response "success")) then Some cannot_convert
      else if negb (printable (data_length response)) then Some cannot_convert
      else if negb (given count_only)
              && negb (List.length (page_items response) <=? max_arguments)%nat
           then Some too_many_arguments
      else if negb (printable (hasMore_of response)) then Some cannot_convert
      else None
  end.

Definition items_of (r : reply) : list value :=
  match r with
  | Resolved response => page_items response
  | Rejected _ => []
  end.

Definition rejected (r : reply) : bool :=
  match r with
  | Rejected _ => true
  | Resolved _ => false
  end.

(** The loop state a reply leaves behind when it is no [fault]. *)
Definition next_state (count_only : option bool) (s : loop_state) (r : reply)
  : loop_state :=
  {| start := if continues r then start s + limit else start s;
     hasMore := match r with
                | Resolved response => hasMore_of response
                | Rejected _ => Bool false
                end;
     pageCount := pageCount s + 1;
     allItems := if given count_only then allItems s else allItems s ++ items_of r |}.

(** The calls of [n] successive pages from offset [start]. *)
Fixpoint offsets (fetch : Z -> Z -> call) (start : Z) (n : nat) : list call :=
  match n with
  | O => []
  | S n' => fetch start limit :: offsets fetch (start + limit) n'
  end.

(** The value a result serialises, and the [terminated_early] marker the
    specification speaks of, read as a property of that value. *)
Definition payload (r : tool_result) : value :=
  match content r with
  | [{| type := _; text := JSON_stringify v |}] => v
  | _ => undefined
  end.

Definition terminated_early (r : tool_result) : value :=
  get_prop (payload r) "terminated_early".

(** The state after awaiting [c], answered by [r] in a world left as [w]. *)
Definition record {World} (st : state World) (c : call) (r : reply) (w : World)
  : state World :=
  {| world := w; trace := trace st ++ [(c, r)] |}.

(** An event the upstream can have produced. *)
Definition answered {World} (upstream : call -> World -> reply * World)
    (ev : event) : Prop :=
  exists w, fst (upstream (fst ev) w) = snd ev.

(** How a run of the loop that fetched the pages [evs] and then [last]
    ends: with the items of all its pages (unless [count_only]), after a
    final page or at the ceiling; or with what the last reply threw. *)
Definition loop_end (max_arguments : nat) (count_only : option bool) (s : loop_state)
    (evs : list event) (last : event) (o : outcome loop_state) : Prop :=
  match o with
  | Returns s' =>
      fault max_arguments count_only (snd last) = None
      /\ allItems s' =
        (if given count_only then allItems s
         else allItems s ++ flat_map (fun ev => items_of (snd ev)) (evs ++ [last]))
      /\ pageCount s' = pageCount s + Z.of_nat (S (List.length evs))
      /\ ((final (snd last) = true
           /\ start s' = start s + limit * Z.of_nat (List.length evs))
          \/ (continues (snd last) = true
              /\ start s' = start s + limit * Z.of_nat (S (List.length evs))
              /\ 10000 <= start s'))
  | Throws e => fault max_arguments count_only (snd last) = Some e
  | OutOfFuel => False
  end.

(** ** Reading the handlers off the replies they get *)

(** What the catch block of each handler puts before the error message. *)
Definition error_prefix (i : invocation) : string :=
  match i with
  | Get_deals _ _ => "Error fetching deals: "
  | Get_deal dealId => "Error fetching deal " ++ Number_toString dealId ++ ": "
  | Get_deal_history dealId _ =>
      "Error fetching deal " ++ Number_toString dealId ++ " history: "
  | Search_deals _ => "Error searching deals: "
  | Get_persons => "Error fetching persons: "
  | Get_person personId => "Error fetching person " ++ Number_toString personId ++ ": "
  | Search_persons _ => "Error searching persons: "
  | Get_organizations => "Error fetching organizations: "
  | Get_organization organizationId =>
      "Error fetching organization " ++ Number_toString organizationId ++ ": "
  | Search_organizations _ => "Error searching organizations: "
  | Get_pipelines => "Error fetching pipelines: "
  | Get_pipeline pipelineId =>
      "Error fetching pipeline " ++ Number_toString pipelineId ++ ": "
  | Get_stages => "Error fetching stages: "
  | Search_leads _ => "Error searching leads: "
  | Search_all _ _ => "Error performing search: "
  end.


(** What a catch block makes of the error it caught: the error result
    with its message; or it throws in its turn, what [JSON.stringify]
    throws on the error ([details], in get-deals) or what [String] throws
    on an error without a string message. *)
Definition report (details : bool) (prefix : string) (e : thrown)
  : outcome tool_result :=
  match (if details then stringify_failure e else None) with
  | Some failure => Throws failure
  | None =>
      match getErrorMessage e with
      | inl message => Returns (error_result (prefix ++ message))
      | inr failure => Throws failure
      end
  end.




(** [response.additional_data?.next_cursor] *)
Definition next_cursor_of (response : value) : value :=
  opt_chain (get_prop response "additional_data") "next_cursor".

(** What the reply to the changelog request makes get-deal-history throw,
    if anything. *)
Definition history_fault (r : reply) : option thrown :=
  match r with
  | Rejected error => Some error
  | Resolved response =>
      if nullish response then Some (cannot_read response "data")
      else if negb (printable (data_length response)) then Some cannot_convert
      else if truthy (next_cursor_of response) && negb (printable (next_cursor_of response))
           then Some cannot_convert
      else None
  end.

(** The outcome of get-deal-history. *)
Definition history_of (dealId : Z) (r : reply) : outcome tool_result :=
  match history_fault r, r with
  | Some e, _ | None, Rejected e =>
      report false (error_prefix (Get_deal_history dealId None)) e
  | None, Resolved response =>
      Returns (text_result (JSON_stringify
        (history_result dealId (get_prop response "data")
                        (get_prop response "additional_data"))))
  end.

(** What going through a pipeline throws before its stages are fetched,
    and again in the catch block of the loop body, so that it ends the
    loop: the [TypeError] of reading [id] off an entry that is [null] or
    [undefined], or that of printing an [id] that cannot be printed. *)
Definition id_fault (pipeline : value) : option thrown :=
  if nullish pipeline then Some (cannot_read pipeline "id")
  else if printable (get_prop pipeline "id") then None
  else Some cannot_convert.

(** The URL the stages of a pipeline are fetched from. *)
Definition stages_url_of (token : string) (pipeline : value) : string :=
  stages_url token
    (match ToString (get_prop pipeline "id") with
     | Some id => id
     | None => EmptyString
     end).

(** The stages a pipeline contributes, given the reply to the fetch of its
    stages: none when the fetch is rejected, when the body is not a success
    with an array of stages, or when the stages are more than a call can
    spread. *)
Definition stages_pushed (max_arguments : nat) (pipeline : value) (r : reply)
  : list value :=
  match r with
  | Rejected _ => []
  | Resolved stagesData =>
      if nullish stagesData then []
      else if truthy (get_prop stagesData "success") then
        match get_prop stagesData "data" with
        | Arr l =>
            if (List.length l <=? max_arguments)%nat
            then map (tag_stage (get_prop pipeline "name")) l
            else []
        | _ => []
        end
      else []
  end.

(** [fetched_stages token max pipelines evs out e]: going through
    [pipelines] in order, the stage fetches [evs] were made, one per
    pipeline, and [out] gathers what each pipeline contributed, in the same
    order; the loop went through all the pipelines ([e] is [None]) or was
    ended by the first with an [id_fault], which [e] holds. *)
Inductive fetched_stages (token : string) (max_arguments : nat)
  : list value -> list event -> list value -> option thrown -> Prop :=
| fetched_nil : fetched_stages token max_arguments [] [] [] None
| fetched_abort pipeline rest e :
    id_fault pipeline = Some e ->
    fetched_stages token max_arguments (pipeline :: rest) [] [] (Some e)
| fetched_cons pipeline rest r evs out e :
    id_fault pipeline = None ->
    fetched_stages token max_arguments rest evs out e ->
    fetched_stages token max_arguments (pipeline :: rest)
      ((fetch_json (stages_url_of token pipeline), r) :: evs)
      (stages_pushed max_arguments pipeline r ++ out) e.

(** The pipelines whose stages are fetched: those before the first with an
    [id_fault]. *)
Fixpoint fetchable (pipelines : list value) : list value :=
  match pipelines with
  | [] => []
  | pipeline :: rest =>
      match id_fault pipeline with
      | Some _ => []
      | None => pipeline :: fetchable rest
      end
  end.

(** What get-stages answers once the loop over the pipelines has ended. *)
Definition stages_result (out : list value) (e : option thrown) : outcome tool_result :=
  match e with
  | None => Returns (text_result (JSON_stringify (Arr out)))
  | Some error => report false "Error fetching stages: " error
  end.

(** ** Sample upstreams *)

Definition pagination (more : bool) : value :=
  Obj [("pagination", Obj [("more_items_in_collection", Bool more)])].

(** The page of [records] at offset [start]: at most [limit] records, and
    whether some remain after them. *)
Definition page_of (records : list value) (start limit : Z) : value :=
  Obj [("success", Bool true);
       ("data", Arr (firstn (Z.to_nat limit) (skipn (Z.to_nat start) records)));
       ("additional_data",
        pagination (start + limit <? Z.of_nat (List.length records)))].

(** An upstream with [records] as its deals, and nothing else. *)
Definition serving (records : list value) (c : call) (w : unit) : reply * unit :=
  match c with
  | getDeals start limit _ => (Resolved (page_of records start limit), w)
  | _ => (Rejected (Error "Not Found"), w)
  end.

Definition numbered (n : nat) : list value :=
  map (fun i => Num (Z.of_nat i)) (seq 0 n).

(** An upstream whose every page holds one record and reports more. *)
Definition endless (c : call) (w : unit) : reply * unit :=
  (Resolved (Obj [("success", Bool true);
                  ("data", Arr [Str "record"]);
                  ("additional_data", pagination true)]), w).

(** An upstream that counts the calls it gets and rejects the third. *)
Definition flaky (c : call) (calls : nat) : reply * nat :=
  (if (calls =? 2)%nat then Rejected (Error "Service Unavailable")
   else Resolved (Obj [("success", Bool true);
                       ("data", Arr [Str "record"]);
                       ("additional_data", pagination true)]),
   S calls).

(** An error with a message that refers to itself, as the errors of HTTP
    clients do through the request and the response they hold: it cannot
    be serialised. *)
Definition circular_error (message : string) : thrown :=
  Thrown_object [("message", Str message)] (inl ("Error: " ++ message)%string)
    (Some not_serialisable).

(** An upstream that rejects every call with such an error. *)
Definition unavailable (c : call) (w : unit) : reply * unit :=
  (Rejected (circular_error "Service Unavailable"), w).

(** An upstream that rejects every call with a plain object that has no
    [message] and a [toString] of its own. *)
Definition unprintable : value := Obj [("toString", Str "x")].

Definition rejecting_unprintable (c : call) (w : unit) : reply * unit :=
  (Rejected (Thrown unprintable), w).

(** A first page without [data] that reports more, then one record. *)
Definition no_data_then_one (c : call) (w : unit) : reply * unit :=
  match c with
  | getDeals 0 _ _ =>
      (Resolved (Obj [("success", Bool true); ("data", null);
                      ("additional_data", pagination true)]), w)
  | _ =>
      (Resolved (Obj [("success", Bool true); ("data", Arr [Str "record"]);
                      ("additional_data", pagination false)]), w)
  end.

(** A page of one record without any pagination metadata. *)
Definition bare_page (c : call) (w : unit) : reply * unit :=
  (Resolved (Obj [("success", Bool true); ("data", Arr [Str "record"])]), w).

(** Pages that report more items for ever, with a [success] that cannot be
    printed. *)
Definition endless_unprintable (c : call) (w : unit) : reply * unit :=
  (Resolved (Obj [("success", unprintable);
                  ("data", Arr [Str "record"]);
                  ("additional_data", pagination true)]), w).

(** Two pipelines; the stages of the first cannot be fetched. *)
Definition pipeline_A : value := Obj [("id", Num 1); ("name", Str "A")].
Definition pipeline_B : value := Obj [("id", Num 2); ("name", Str "B")].
Definition stage_of_B : value := Obj [("id", Num 7); ("name", Str "Qualified")].

Definition two_pipelines (c : call) (w : unit) : reply * unit :=
  match c with
  | getPipelines =>
      (Resolved (Obj [("success", Bool true);
                      ("data", Arr [pipeline_A; pipeline_B])]), w)
  | fetch_json url =>
      if String.eqb url (stages_url "token" "2")
      then (Resolved (Obj [("success", Bool true); ("data", Arr [stage_of_B])]), w)
      else (Rejected (Error "fetch failed"), w)
  | _ => (Rejected (Error "Not Found"), w)
  end.

(** The same, with a [null] entry between the two pipelines. *)
Definition pipelines_with_null (c : call) (w : unit) : reply * unit :=
  match c with
  | getPipelines =>
      (Resolved (Obj [("success", Bool true);
                      ("data", Arr [pipeline_A; null; pipeline_B])]), w)
  | _ => two_pipelines c w
  end.

(** A changelog response with neither [data] nor [additional_data]. *)
Definition empty_changelog (c : call) (w : unit) : reply * unit :=
  (Resolved (Obj [("success", Bool true)]), w).

(** A changelog response without [data] whose cursor cannot be printed. *)
Definition changelog_with_unprintable_cursor (c : call) (w : unit) : reply * unit :=
  (Resolved (Obj [("success", Bool true);
                  ("additional_data", Obj [("next_cursor", unprintable)])]), w).

(** A well-formed page of [records] at offset [start]: a [success] that
    can be printed, up to [limit] of the records from that offset on, and a
    more-items flag that can be printed and tells whether some remain
    beyond the page. *)
Definition well_formed_page (records : list value) (start : Z) (response : value)
  : Prop :=
  nullish response = false
  /\ printable (get_prop response "success") = true
  /\ get_prop response "data"
     = Arr (firstn (Z.to_nat limit) (skipn (Z.to_nat start) records))
  /\ printable (hasMore_of response) = true
  /\ truthy (more_flag response) = (start + limit <? Z.of_nat (List.length records)).

(** An upstream that serves [records] through the endpoint [fetch]. *)
Definition serves {World} (upstream : call -> World -> reply * World)
    (fetch : Z -> Z -> call) (records : list value) : Prop :=
  forall start w, 0 <= start ->
    exists response w',
      upstream (fetch start limit) w = (Resolved response, w')
      /\ well_formed_page records start response.

(** The pages it takes to fetch [n] records: at least one. *)
Definition pages (n : Z) : nat := Z.to_nat (Z.max 1 ((n + 499) / 500)).

(** An upstream with [records] behind each of the three paged endpoints. *)
Definition serving_all (records : list value) (c : call) (w : unit) : reply * unit :=
  match c with
  | getDeals start limit _ | getPersons start limit | getOrganizations start limit =>
      (Resolved (page_of records start limit), w)
  | _ => (Rejected (Error "Not Found"), w)
  end.

(** An upstream that resolves every call with [null]. *)
Definition answering_null (c : call) (w : unit) : reply * unit := (Resolved null, w).

(** An upstream whose pipelines response has [data: null]. *)
Definition no_pipelines (c : call) (w : unit) : reply * unit :=
  (Resolved (Obj [("success", Bool true); ("data", null)]), w).

(** An upstream whose pipelines response holds an object for [data]. *)
Definition pipelines_as_object (c : call) (w : unit) : reply * unit :=
  (Resolved (Obj [("success", Bool true); ("data", Obj [("1", pipeline_A)])]), w).

(** A changelog of two entries with a cursor to the next page. *)
Definition changelog_page (c : call) (w : unit) : reply * unit :=
  (Resolved (Obj [("success", Bool true);
                  ("data", Arr [Str "created"; Str "stage changed"]);
                  ("additional_data", Obj [("next_cursor", Str "abc")])]), w).

(** The two loop states agree on everything that steers the loop. *)
Definition same_control (s1 s2 : loop_state) : Prop :=
  start s1 = start s2 /\ hasMore s1 = hasMore s2 /\ pageCount s1 = pageCount s2.

(** The successful result of each paginating handler over [items]. *)
Definition collected_deals (status : option deal_status) (items : list value)
  : tool_result :=
  text_result (JSON_stringify (Obj [
    ("total_count", length_of items);
    ("status_filter", Str (status_filter status));
    ("deals", Arr items)])).

Definition collected_persons (items : list value) : tool_result :=
  text_result (JSON_stringify (Obj [
    ("total_count", length_of items);
    ("persons", Arr items)])).

Definition collected_organizations (items : list value) : tool_result :=
  text_result (JSON_stringify (Obj [
    ("total_count", length_of items);
    ("organizations", Arr items)])).

(** The handlers built on the pagination loop. *)
Definition paginated (i : invocation) : bool :=
  match i with
  | Get_deals _ _ | Get_persons | Get_organizations => true
  | _ => false
  end.

(** The items of the pages of a trace, in order. *)
Definition items_fetched (tr : list event) : list value :=
  flat_map (fun ev => items_of (snd ev)) tr.

(** ** Properties *)

Section Properties.

Context {World : Type}.
Variable upstream : call -> World -> reply * World.
Variable max_arguments : nat.

Implicit Types (st : state World) (s : loop_state) (r : reply) (c : call).

Lemma truthy_or_false (v : value) :
  truthy (logical_or v (Bool false)) = truthy v.
Proof.
  unfold logical_or. destruct (truthy v) eqn:E; [exact E | reflexivity].
Qed.

Lemma fault_not_nullish count_only v :
  fault max_arguments count_only (Resolved v) = None -> nullish v = false.
Proof.
  unfold fault. now destruct (nullish v).
Qed.

Lemma continues_or_final count_only r :
  fault max_arguments count_only r = None -> continues r = negb (final r).
Proof.
  destruct r as [v|e]; [|discriminate].
  intros H. apply fault_not_nullish in H. unfold continues, final.
  rewrite H. simpl. now rewrite negb_involutive.
Qed.

(** One pass through the loop body, read off the reply of its fetch. *)
Lemma page_run fetch count_only s st :
  page upstream max_arguments fetch count_only s st =
  let c := fetch (start s) limit in
  let (r, w) := upstream c (world st) in
  match fault max_arguments count_only r with
  | Some e => (Throws e, record st c r w)
  | None =>
      (Returns (next_state count_only s r,
                10000 <=? start (next_state count_only s r)),
       record st c r w)
  end.
Proof.
  unfold page, bind, await, member, to_string, spread, record, fault, printable.
  cbv zeta.
  destruct (upstream (fetch (start s) limit) (world st)) as [r w].
  destruct r as [v|e]; cbv beta iota; [|reflexivity].
  destruct (nullish v) eqn:Hn; cbv beta iota; unfold throw, ret; [reflexivity|].
  destruct (ToString (get_prop v "success")); cbn [negb]; cbv beta iota;
    [|reflexivity].
  fold (data_length v).
  destruct (ToString (data_length v)); cbn [negb]; cbv beta iota; [|reflexivity].
  unfold next_state, continues, items_of, page_items. cbv zeta.
  fold (more_flag v). fold (hasMore_of v).
  rewrite Hn. unfold hasMore_of at 2 4. rewrite truthy_or_false. cbn [negb andb start].
  destruct (given count_only); cbn [negb andb];
    destruct (truthy (get_prop v "data") && isArray (get_prop v "data"));
    cbv beta iota;
    try (destruct (List.length (elements_of (get_prop v "data")) <=? max_arguments)%nat;
         cbn [negb]; cbv beta iota; [|reflexivity]);
    cbn [List.length Nat.leb negb];
    destruct (ToString (hasMore_of v)); cbn [negb]; cbv beta iota;
    rewrite ?app_nil_r; reflexivity.
Qed.

Lemma while_hasMore_done fuel fetch count_only s st :
  truthy (hasMore s) = false ->
  while_hasMore upstream max_arguments fuel fetch count_only s st = (Returns s, st).
Proof.
  intros H. destruct fuel; simpl; rewrite H; reflexivity.
Qed.

Lemma while_hasMore_step fuel fetch count_only s st :
  truthy (hasMore s) = true ->
  while_hasMore upstream max_arguments (S fuel) fetch count_only s st =
  let c := fetch (start s) limit in
  let (r, w) := upstream c (world st) in
  match fault max_arguments count_only r with
  | Some e => (Throws e, record st c r w)
  | None =>
      let s' := next_state count_only s r in
      if 10000 <=? start s' then (Returns s', record st c r w)
      else while_hasMore upstream max_arguments fuel fetch count_only s' (record st c r w)
  end.
Proof.
  intros H. cbn [while_hasMore]. rewrite H. unfold bind. rewrite page_run. cbv zeta.
  destruct (upstream (fetch (start s) limit) (world st)) as [r w].
  destruct (fault max_arguments count_only r); [reflexivity|].
  cbv beta iota delta [fst snd].
  destruct (10000 <=? start (next_state count_only s r)); reflexivity.
Qed.

Lemma truthy_hasMore_next count_only s r :
  fault max_arguments count_only r = None ->
  truthy (hasMore (next_state count_only s r)) = continues r.
Proof.
  destruct r as [v|e]; [|discriminate].
  intros H. apply fault_not_nullish in H. cbn [next_state hasMore continues].
  rewrite H. unfold hasMore_of. now rewrite truthy_or_false.
Qed.

(** The loop cannot run out of iterations once the bound covers the
    distance from the current offset to the ceiling. *)
Lemma while_hasMore_terminates fetch count_only fuel :
  forall s st,
    (truthy (hasMore s) = true ->
     (0 < fuel)%nat /\ 10000 <= start s + limit * Z.of_nat fuel) ->
    fst (while_hasMore upstream max_arguments fuel fetch count_only s st) <> OutOfFuel.
Proof.
  induction fuel as [|fuel IH]; intros s st Hfuel.
  - destruct (truthy (hasMore s)) eqn:E.
    + destruct (Hfuel eq_refl) as [H _]. inversion H.
    + rewrite while_hasMore_done by exact E. discriminate.
  - destruct (truthy (hasMore s)) eqn:E.
    2:{ rewrite while_hasMore_done by exact E. discriminate. }
    destruct (Hfuel eq_refl) as [_ Hb].
    rewrite while_hasMore_step by exact E. cbv zeta.
    destruct (upstream (fetch (start s) limit) (world st)) as [r w].
    destruct (fault max_arguments count_only r) eqn:Hf; [discriminate|].
    destruct (10000 <=? start (next_state count_only s r)) eqn:Hc; [discriminate|].
    apply IH. intros Hm. rewrite truthy_hasMore_next in Hm by exact Hf.
    apply Z.leb_gt in Hc. unfold next_state in Hc |- *. cbn [start] in *.
    rewrite Hm in *. unfold limit in *. split; lia.
Qed.

(** More iterations than needed change nothing. *)
Lemma while_hasMore_more_fuel fetch count_only fuel :
  forall s st,
    fst (while_hasMore upstream max_arguments fuel fetch count_only s st) <> OutOfFuel ->
    while_hasMore upstream max_arguments (S fuel) fetch count_only s st =
    while_hasMore upstream max_arguments fuel fetch count_only s st.
Proof.
  induction fuel as [|fuel IH]; intros s st H.
  - destruct (truthy (hasMore s)) eqn:E.
    + simpl in H. rewrite E in H. now elim H.
    + now rewrite !while_hasMore_done.
  - destruct (truthy (hasMore s)) eqn:E.
    2:{ now rewrite !while_hasMore_done. }
    rewrite (while_hasMore_step (S fuel)) by exact E.
    rewrite (while_hasMore_step fuel) in H |- * by exact E. cbv zeta in *.
    destruct (upstream (fetch (start s) limit) (world st)) as [r w].
    destruct (fault max_arguments count_only r); [reflexivity|].
    destruct (10000 <=? start (next_state count_only s r)); [reflexivity|].
    now apply IH.
Qed.

(** The shape of every run of the loop that is not cut off: pages without
    fault that continue, at successive offsets below the ceiling, then one
    last page that decides how the run ends. *)
Lemma loop_shape fetch count_only fuel :
  forall s st o st',
    truthy (hasMore s) = true ->
    while_hasMore upstream max_arguments fuel fetch count_only s st = (o, st') ->
    o <> OutOfFuel ->
    exists evs last,
      trace st' = trace st ++ evs ++ [last]
      /\ map fst (evs ++ [last]) = offsets fetch (start s) (S (List.length evs))
      /\ Forall (fun ev => continues (snd ev) = true) evs
      /\ Forall (fun ev => fault max_arguments count_only (snd ev) = None) evs
      /\ Forall (answered upstream) (evs ++ [last])
      /\ (evs = [] \/ start s + limit * Z.of_nat (List.length evs) < 10000)
      /\ loop_end max_arguments count_only s evs last o.
Proof.
  induction fuel as [|fuel IH]; intros s st o st' Hs Hrun Ho.
  { simpl in Hrun. rewrite Hs in Hrun. inversion Hrun; subst. now elim Ho. }
  rewrite while_hasMore_step in Hrun by exact Hs. cbv zeta in Hrun.
  destruct (upstream (fetch (start s) limit) (world st)) as [r w] eqn:Hu.
  assert (Hans : answered upstream (fetch (start s) limit, r)).
  { exists (world st).
    change (fst (upstream (fetch (start s) limit) (world st)) = r).
    now rewrite Hu. }
  destruct (fault max_arguments count_only r) eqn:Hf.
  { inversion Hrun; subst. exists [], (fetch (start s) limit, r).
    repeat split; simpl; auto. }
  pose proof (truthy_hasMore_next count_only s r Hf) as Hnext.
  pose proof (continues_or_final count_only r Hf) as Hcf.
  destruct (10000 <=? start (next_state count_only s r)) eqn:Hc.
  { inversion Hrun; subst. exists [], (fetch (start s) limit, r).
    apply Z.leb_le in Hc. simpl in Hc.
    repeat split; simpl; auto.
    - destruct (given count_only); now rewrite ?app_nil_r.
    - destruct (continues r); [right|left]; repeat split; auto;
        unfold limit in *; try lia.
      now destruct (final r). }
  apply Z.leb_gt in Hc. simpl in Hc.
  destruct (continues r) eqn:Hcont.
  2:{ rewrite while_hasMore_done in Hrun by exact Hnext.
      inversion Hrun; subst. exists [], (fetch (start s) limit, r).
      repeat split; simpl; auto.
      - destruct (given count_only); now rewrite ?app_nil_r.
      - rewrite Hcont. left. split; [now destruct (final r)|unfold limit; lia]. }
  destruct (IH _ _ _ _ Hnext Hrun Ho)
    as (evs & last & Htr & Hoff & Hall & Hnf & Hans' & Hbound & Hend).
  exists ((fetch (start s) limit, r) :: evs), last.
  assert (Hstart : start (next_state count_only s r) = start s + limit)
    by (simpl; now rewrite Hcont).
  split; [|split; [|split; [|split; [|split; [|split]]]]].
  - rewrite Htr. unfold record. cbn [trace]. now rewrite <- !app_assoc.
  - cbn [app map fst List.length offsets]. f_equal.
    rewrite <- Hstart. exact Hoff.
  - constructor; [exact Hcont | exact Hall].
  - constructor; [exact Hf | exact Hnf].
  - constructor; [exact Hans | exact Hans'].
  - right. cbn [List.length]. rewrite Nat2Z.inj_succ.
    destruct Hbound as [->|Hb]; [simpl; unfold limit in *; lia|].
    rewrite Hstart in Hb. unfold limit in *. lia.
  - destruct o as [s'|e|]; cbn [loop_end] in *; auto.
    destruct Hend as (Hlf & Hitems & Hpages & Hlast).
    cbn [List.length app flat_map snd]. rewrite !Nat2Z.inj_succ in *.
    rewrite Hstart in Hlast. cbn [next_state allItems pageCount] in Hitems, Hpages.
    split; [exact Hlf|]. split; [|split].
    + rewrite Hitems. destruct (given count_only); [reflexivity|].
      now rewrite <- app_assoc.
    + lia.
    + destruct Hlast as [[Hfin Heq]|(Hco & Heq & Hle)]; [left|right];
        repeat split; auto; unfold limit in *; lia.
Qed.

Lemma continues_not_final r : continues r = true -> final r = false.
Proof.
  destruct r as [v|e]; simpl; [|discriminate].
  destruct (nullish v); simpl; [discriminate|].
  now intros ->.
Qed.

(** From the initial state, twenty iterations are always enough. *)
Lemma loop_total fetch count_only fuel st :
  (20 <= fuel)%nat ->
  fst (while_hasMore upstream max_arguments fuel fetch count_only loop_init st)
  <> OutOfFuel.
Proof.
  intros Hfuel. apply while_hasMore_terminates. intros _.
  unfold loop_init, limit. cbn [start]. split; lia.
Qed.

(** What the catch blocks make of an error. *)
Lemma catch_run (details : bool) prefix (e : thrown) st :
  bind (if details then stringify_error e else ret tt)
    (fun _ => bind (error_message e)
       (fun message => ret (error_result (prefix ++ message)))) st
  = (report details prefix e, st).
Proof.
  unfold bind, stringify_error, error_message, report, ret, throw.
  destruct details.
  - destruct (stringify_failure e); [reflexivity|]. now destruct (getErrorMessage e).
  - now destruct (getErrorMessage e).
Qed.

(** How each paginating handler wraps its loop. *)
Lemma get_deals_run fuel status count_only st :
  get_deals upstream max_arguments fuel status count_only st =
  match while_hasMore upstream max_arguments fuel
          (fun start limit => getDeals start limit (status_filter status))
          count_only loop_init st with
  | (Returns s, st') => (Returns (deals_result status count_only s), st')
  | (Throws e, st') => (report true "Error fetching deals: " e, st')
  | (OutOfFuel, st') => (OutOfFuel, st')
  end.
Proof.
  unfold get_deals, try_catch. unfold bind at 1.
  destruct (while_hasMore _ _ _ _ _ _ _) as [[s|e|] st']; try reflexivity.
  exact (catch_run true _ e st').
Qed.

Lemma get_persons_run fuel st :
  get_persons upstream max_arguments fuel st =
  match while_hasMore upstream max_arguments fuel getPersons None loop_init st with
  | (Returns s, st') => (Returns (persons_result s), st')
  | (Throws e, st') => (report false "Error fetching persons: " e, st')
  | (OutOfFuel, st') => (OutOfFuel, st')
  end.
Proof.
  unfold get_persons, try_catch. unfold bind at 1.
  destruct (while_hasMore _ _ _ _ _ _ _) as [[s|e|] st']; try reflexivity.
  exact (catch_run false _ e st').
Qed.

Lemma get_organizations_run fuel st :
  get_organizations upstream max_arguments fuel st =
  match while_hasMore upstream max_arguments fuel getOrganizations None loop_init st with
  | (Returns s, st') => (Returns (organizations_result s), st')
  | (Throws e, st') => (report false "Error fetching organizations: " e, st')
  | (OutOfFuel, st') => (OutOfFuel, st')
  end.
Proof.
  unfold get_organizations, try_catch. unfold bind at 1.
  destruct (while_hasMore _ _ _ _ _ _ _) as [[s|e|] st']; try reflexivity.
  exact (catch_run false _ e st').
Qed.

(** The errors the handlers raise themselves have a message, and every
    catch block reports them. *)
Lemma report_TypeError details prefix message :
  report details prefix (TypeError message) = Returns (error_result (prefix ++ message)).
Proof.
  unfold report. now destruct details.
Qed.

Lemma report_RangeError details prefix message :
  report details prefix (RangeError message) = Returns (error_result (prefix ++ message)).
Proof.
  unfold report. now destruct details.
Qed.

Lemma fault_of_response count_only v e :
  fault max_arguments count_only (Resolved v) = Some e ->
  exists message,
    forall details prefix,
      report details prefix e = Returns (error_result (prefix ++ message)).
Proof.
  unfold fault.
  destruct (nullish v);
    [|destruct (negb (printable (get_prop v "success")));
      [|destruct (negb (printable (data_length v)));
        [|destruct (negb (given count_only)
                    && negb (List.length (page_items v) <=? max_arguments)%nat);
          [|destruct (negb (printable (hasMore_of v)));[|discriminate]]]]];
    intros [= <-]; eexists; intros details prefix;
    first [apply report_TypeError | apply report_RangeError].
Qed.

(** Every run of the loop from its initial state, over any upstream, makes
    between one and twenty fetches, at the offsets 0, 500, ... in order. *)
Lemma loop_requests fetch count_only fuel w :
  (20 <= fuel)%nat ->
  exists o st' n,
    while_hasMore upstream max_arguments fuel fetch count_only loop_init (start_in w)
    = (o, st')
    /\ o <> OutOfFuel
    /\ (1 <= n <= 20)%nat
    /\ map fst (trace st') = offsets fetch 0 n.
Proof.
  intros Hfuel.
  pose proof (loop_total fetch count_only fuel (start_in w) Hfuel) as Hterm.
  destruct (while_hasMore upstream max_arguments fuel fetch count_only loop_init
              (start_in w)) as [o st'] eqn:Hrun.
  destruct (loop_shape fetch count_only fuel loop_init _ _ _ eq_refl Hrun Hterm)
    as (evs & last & Htr & Hoff & _ & _ & _ & Hbound & _).
  exists o, st', (S (List.length evs)). split; [reflexivity|]. split; [exact Hterm|].
  split.
  - cbn [loop_init start] in Hbound. unfold limit in Hbound.
    destruct Hbound as [->|Hb]; simpl; lia.
  - rewrite Htr. exact Hoff.
Qed.

(** When every page reports more items, the loop makes at most twenty
    fetches, at offsets 0, 500, ...: it leaves through [break] at 10000
    after the twentieth, unless a page before made it throw. *)
Lemma loop_reaches_ceiling fetch count_only fuel w :
  (20 <= fuel)%nat ->
  (forall c w', continues (fst (upstream c w')) = true) ->
  exists o st' n,
    while_hasMore upstream max_arguments fuel fetch count_only loop_init (start_in w)
    = (o, st')
    /\ (1 <= n <= 20)%nat
    /\ map fst (trace st') = offsets fetch 0 n
    /\ match o with
       | Returns s' => n = 20%nat /\ start s' = 10000
       | Throws e =>
           (exists message, forall details prefix,
               report details prefix e = Returns (error_result (prefix ++ message)))
           /\ exists c w',
               fault max_arguments count_only (fst (upstream c w')) = Some e
       | OutOfFuel => False
       end.
Proof.
  intros Hfuel Hmore.
  pose proof (loop_total fetch count_only fuel (start_in w) Hfuel) as Hterm.
  destruct (while_hasMore upstream max_arguments fuel fetch count_only loop_init
              (start_in w)) as [o st'] eqn:Hrun.
  destruct (loop_shape fetch count_only fuel loop_init _ _ _ eq_refl Hrun Hterm)
    as (evs & last & Htr & Hoff & _ & _ & Hans & Hbound & Hend).
  assert (Hlast : exists c w', fst (upstream c w') = snd last).
  { apply Forall_app in Hans as [_ Hl]. inversion Hl as [|? ? [w' Hw] _]; subst.
    now exists (fst last), w'. }
  destruct Hlast as (c & w' & Hlast).
  pose proof (Hmore c w') as Hcont. rewrite Hlast in Hcont.
  exists o, st', (S (List.length evs)).
  split; [reflexivity|]. cbn [loop_init start] in Hbound. unfold limit in Hbound.
  split; [destruct Hbound as [->|Hb]; simpl; lia|].
  split; [rewrite Htr; exact Hoff|].
  destruct o as [s'|e|]; cbn [loop_end] in Hend.
  - destruct Hend as (_ & _ & _ & [[Hfin _]|(_ & Hst & Hle)]).
    { rewrite (continues_not_final _ Hcont) in Hfin. discriminate. }
    cbn [loop_init start] in *. unfold limit in *.
    assert (Hlen : List.length evs = 19%nat).
    { destruct Hbound as [->|Hb]; [simpl in *; lia|lia]. }
    rewrite Hlen in *. split; [reflexivity|lia].
  - split.
    + destruct (snd last) as [v|e'] eqn:El; [|discriminate Hcont].
      exact (fault_of_response count_only v e Hend).
    + exists c, w'. now rewrite Hlast.
  - contradiction.
Qed.

(** C4. When the upstream reports more items on every page, for ever,
    get-deals, get-persons and get-organizations each return after at
    least one and at most twenty page fetches, at offsets 0, 500, ... with
    page size 500: the loop stops once the offset reaches 10000, after
    the twentieth fetch, and the result is then not an error; a run of
    fewer fetches is one that a page made fail. *)
Theorem pagination_stops_at_ceiling fuel status count_only w :
  (20 <= fuel)%nat ->
  (forall c w', continues (fst (upstream c w')) = true) ->
  (exists res st' n,
      get_deals upstream max_arguments fuel status count_only (start_in w)
      = (Returns res, st')
      /\ (1 <= n <= 20)%nat
      /\ map fst (trace st')
         = offsets (fun start limit => getDeals start limit (status_filter status)) 0 n
      /\ (isError res = None <-> n = 20%nat /\ exists s', start s' = 10000
                                   /\ res = deals_result status count_only s')
      /\ ((forall c w', fault max_arguments count_only (fst (upstream c w')) = None) ->
          isError res = None))
  /\ (exists res st' n,
      get_persons upstream max_arguments fuel (start_in w) = (Returns res, st')
      /\ (1 <= n <= 20)%nat
      /\ map fst (trace st') = offsets getPersons 0 n
      /\ (isError res = None <-> n = 20%nat /\ exists s', start s' = 10000
                                   /\ res = persons_result s')
      /\ ((forall c w', fault max_arguments None (fst (upstream c w')) = None) ->
          isError res = None))
  /\ (exists res st' n,
      get_organizations upstream max_arguments fuel (start_in w) = (Returns res, st')
      /\ (1 <= n <= 20)%nat
      /\ map fst (trace st') = offsets getOrganizations 0 n
      /\ (isError res = None <-> n = 20%nat /\ exists s', start s' = 10000
                                   /\ res = organizations_result s')
      /\ ((forall c w', fault max_arguments None (fst (upstream c w')) = None) ->
          isError res = None)).
Proof.
  intros Hfuel Hmore.
  assert (Hgen : forall fetch co details prefix (mk : loop_state -> tool_result),
             (forall s, isError (mk s) = None) ->
             exists res st' n,
               match while_hasMore upstream max_arguments fuel fetch co loop_init
                       (start_in w) with
               | (Returns s, st1) => (Returns (mk s), st1)
               | (Throws e, st1) => (report details prefix e, st1)
               | (OutOfFuel, st1) => (OutOfFuel, st1)
               end = (Returns res, st')
               /\ (1 <= n <= 20)%nat
               /\ map fst (trace st') = offsets fetch 0 n
               /\ (isError res = None <-> n = 20%nat /\ exists s', start s' = 10000
                                            /\ res = mk s')
               /\ ((forall c w', fault max_arguments co (fst (upstream c w')) = None) ->
                   isError res = None)).
  { intros fetch co details prefix mk Hmk.
    destruct (loop_reaches_ceiling fetch co fuel w Hfuel Hmore)
      as (o & st' & n & Hrun & Hn & Hoff & Ho).
    rewrite Hrun. destruct o as [s'|e|]; [| |contradiction].
    - destruct Ho as [-> Hs]. exists (mk s'), st', 20%nat.
      split; [reflexivity|]. split; [exact Hn|]. split; [exact Hoff|].
      split; [|intros _; apply Hmk].
      split; [intros _; split; [reflexivity|now exists s']|intros _; apply Hmk].
    - destruct Ho as [[message Hrep] (c & w' & Hf)]. rewrite Hrep.
      eexists _, st', n. split; [reflexivity|]. split; [exact Hn|].
      split; [exact Hoff|]. split.
      + split; [discriminate|]. intros (_ & s' & _ & Heq).
        pose proof (Hmk s') as H. rewrite <- Heq in H. discriminate H.
      + intros Hnf. rewrite Hnf in Hf. discriminate. }
  split; [|split].
  - rewrite get_deals_run. apply Hgen. intros s. unfold deals_result.
    now destruct (given count_only).
  - rewrite get_persons_run. apply Hgen. reflexivity.
  - rewrite get_organizations_run. apply Hgen. reflexivity.
Qed.

Lemma getErrorMessage_of_message e :
  isErrorWithMessage e = true -> getErrorMessage e = inl (message_of e).
Proof.
  unfold getErrorMessage. now intros ->.
Qed.

(** A rejected fetch ends the loop on the spot, with the rejection thrown:
    it is the last event of the run and every page before it continued. *)
Lemma loop_rejected fetch count_only fuel w o st' c e :
  (20 <= fuel)%nat ->
  while_hasMore upstream max_arguments fuel fetch count_only loop_init (start_in w)
  = (o, st') ->
  In (c, Rejected e) (trace st') ->
  o = Throws e
  /\ exists evs,
      trace st' = evs ++ [(c, Rejected e)]
      /\ Forall (fun ev => continues (snd ev) = true) evs.
Proof.
  intros Hfuel Hrun Hin.
  pose proof (loop_total fetch count_only fuel (start_in w) Hfuel) as Hterm.
  rewrite Hrun in Hterm.
  destruct (loop_shape fetch count_only fuel loop_init _ _ _ eq_refl Hrun Hterm)
    as (evs & last & Htr & _ & Hall & _ & _ & _ & Hend).
  cbn [start_in trace app] in Htr. rewrite Htr in Hin.
  apply in_app_or in Hin as [Hin|[->|[]]].
  { rewrite Forall_forall in Hall. apply Hall in Hin. simpl in Hin. discriminate. }
  split; [|now exists evs].
  destruct o as [s'|e'|]; cbn [loop_end snd fault] in Hend.
  - destruct Hend as (H & _). discriminate.
  - congruence.
  - contradiction.
Qed.

(** C7. A rejected page fetch of get-deals is the last call of the run:
    nothing is fetched again, and nothing collected so far is returned.
    What the handler answers is what its catch block makes of the
    rejection: the error result made of the rejection's message when the
    rejection can be serialised and has a message; but on a rejection that
    cannot be serialised the catch block throws what
    [JSON.stringify(error, null, 2)] throws, and the handler throws
    instead of returning an error result. *)
Theorem get_deals_fails_on_rejected_fetch
    fuel status count_only w o st' c e :
  (20 <= fuel)%nat ->
  get_deals upstream max_arguments fuel status count_only (start_in w) = (o, st') ->
  In (c, Rejected e) (trace st') ->
  o = report true "Error fetching deals: " e
  /\ (forall m,
        serialisable e = true -> getErrorMessage e = inl m ->
        o = Returns (error_result ("Error fetching deals: " ++ m))
        /\ isError (error_result ("Error fetching deals: " ++ m)) = Some true
        /\ payload (error_result ("Error fetching deals: " ++ m)) = undefined)
  /\ (forall failure, stringify_failure e = Some failure -> o = Throws failure)
  /\ exists evs,
      trace st' = evs ++ [(c, Rejected e)]
      /\ Forall (fun ev => rejected (snd ev) = false) evs.
Proof.
  intros Hfuel Hrun Hin. rewrite get_deals_run in Hrun.
  destruct (while_hasMore upstream max_arguments fuel _ count_only loop_init (start_in w))
    as [o' st''] eqn:Hloop.
  assert (st'' = st') as -> by (destruct o'; congruence).
  destruct (loop_rejected _ _ _ _ _ _ _ _ Hfuel Hloop Hin) as (-> & evs & Htr & Hall).
  injection Hrun as <-. split; [reflexivity|]. split; [|split].
  - intros m Hs Hm. unfold report. unfold serialisable in Hs.
    destruct (stringify_failure e); [discriminate|]. rewrite Hm. now repeat split.
  - intros failure Hs. unfold report. now rewrite Hs.
  - exists evs. split; [exact Htr|].
    eapply Forall_impl; [|exact Hall]. intros [c' [v|e']]; simpl; congruence.
Qed.

Lemma app_last_split {A} (l l1 l2 : list A) (x y : A) :
  l ++ [y] = l1 ++ x :: l2 ->
  (l2 = [] /\ l1 = l /\ x = y) \/ In x l.
Proof.
  destruct l2 as [|a l2 _] using rev_ind; intros H.
  - apply app_inj_tail in H as [-> ->]. now left.
  - change (l ++ [y] = l1 ++ (x :: l2) ++ [a]) in H.
    rewrite app_assoc in H. apply app_inj_tail in H as [-> _].
    right. apply in_elt.
Qed.

Lemma deals_result_ok status count_only s :
  isError (deals_result status count_only s) = None
  /\ terminated_early (deals_result status count_only s) = undefined
  /\ (given count_only = false ->
      get_prop (payload (deals_result status count_only s)) "deals"
      = Arr (allItems s)).
Proof.
  unfold deals_result. destruct (given count_only); repeat split; try discriminate.
Qed.

(** The items a completed run collected are those of its pages, in the
    order they were fetched. *)
Lemma loop_collects fetch count_only fuel w s' st' :
  while_hasMore upstream max_arguments fuel fetch count_only loop_init (start_in w)
    = (Returns s', st') ->
  given count_only = false ->
  allItems s' = flat_map (fun ev => items_of (snd ev)) (trace st').
Proof.
  intros Hrun Hco.
  destruct (loop_shape fetch count_only fuel loop_init _ _ _ eq_refl Hrun)
    as (evs & last & Htr & _ & _ & _ & _ & _ & Hend); [discriminate|].
  cbn [loop_end] in Hend. destruct Hend as (_ & Hitems & _).
  rewrite Hco in Hitems. rewrite Hitems, Htr. reflexivity.
Qed.

Lemma filter_all {A} (f : A -> bool) (l : list A) :
  Forall (fun x => f x = true) l -> filter f l = l.
Proof.
  induction 1 as [|x l Hx _ IH]; simpl; [reflexivity|]. now rewrite Hx, IH.
Qed.

(** What [count_only] reports: the offset the loop ended at, that is 500
    times the number of pages that reported more items, whatever the pages
    held. *)
Lemma count_only_total_is_offset fuel status w s' st' :
  while_hasMore upstream max_arguments fuel
    (fun start limit => getDeals start limit (status_filter status))
    (Some true) loop_init (start_in w) = (Returns s', st') ->
  get_deals upstream max_arguments fuel status (Some true) (start_in w)
  = (Returns (deals_result status (Some true) s'), st')
  /\ get_prop (payload (deals_result status (Some true) s')) "total_count"
     = Num (limit * Z.of_nat (List.length
              (filter (fun ev => continues (snd ev)) (trace st')))).
Proof.
  intros Hrun. rewrite get_deals_run, Hrun. split; [reflexivity|].
  destruct (loop_shape _ _ _ loop_init _ _ _ eq_refl Hrun)
    as (evs & last & Htr & _ & Hall & _ & _ & _ & Hend); [discriminate|].
  cbn [loop_end loop_init start] in Hend. destruct Hend as (_ & _ & _ & Hlast).
  rewrite Htr. cbn [start_in trace app].
  unfold event in *.
  rewrite filter_app, length_app, (filter_all _ _ Hall).
  unfold deals_result, payload, text_result. cbn [given content get_prop lookup].
  cbn [String.eqb Ascii.eqb Bool.eqb filter]. f_equal.
  destruct Hlast as [[Hfin ->]|(Hco & -> & _)].
  - assert (Hco : continues (snd last) = false).
    { destruct (snd last) as [v|e]; [|reflexivity]. unfold final in Hfin.
      unfold continues. destruct (nullish v); [discriminate|].
      now destruct (truthy (more_flag v)). }
    rewrite Hco. cbn [List.length]. lia.
  - rewrite Hco. cbn [List.length]. lia.
Qed.

(** A run that ends with the offset at the ceiling fetched twenty pages,
    each reporting more items. *)
Lemma loop_at_ceiling fetch count_only fuel w s' st' :
  while_hasMore upstream max_arguments fuel fetch count_only loop_init (start_in w)
    = (Returns s', st') ->
  10000 <= start s' ->
  start s' = 10000
  /\ List.length (trace st') = 20%nat
  /\ Forall (fun ev => continues (snd ev) = true) (trace st').
Proof.
  intros Hrun Hceil.
  destruct (loop_shape fetch count_only fuel loop_init _ _ _ eq_refl Hrun)
    as (evs & last & Htr & _ & Hall & _ & _ & Hbound & Hend); [discriminate|].
  cbn [loop_end loop_init start] in Hend, Hbound.
  destruct Hend as (_ & _ & _ & Hlast). unfold limit in *.
  assert (Hlen : List.length evs = 19%nat /\ continues (snd last) = true).
  { destruct Hlast as [[_ Heq]|(Hco & Heq & _)];
      (destruct Hbound as [->|Hb]; [simpl in *; lia|]); split; auto; lia. }
  destruct Hlen as [Hlen Hco].
  destruct Hlast as [[Hfin _]|(_ & Heq & _)].
  { apply continues_not_final in Hco. congruence. }
  rewrite Htr. cbn [start_in trace app]. rewrite length_app, Hlen.
  split; [lia|]. split; [reflexivity|].
  apply Forall_app. split; [exact Hall|]. now constructor.
Qed.

(** C2, as amended. When the loop of get-deals leaves because the offset
    reached 10000 (after twenty pages), the invocation returns a result
    that is not an error and holds the items of every page fetched, in
    order; it carries no [terminated_early] marker. *)
Theorem get_deals_at_ceiling fuel status count_only w s' st' :
  while_hasMore upstream max_arguments fuel
    (fun start limit => getDeals start limit (status_filter status))
    count_only loop_init (start_in w) = (Returns s', st') ->
  10000 <= start s' ->
  exists res,
    get_deals upstream max_arguments fuel status count_only (start_in w)
    = (Returns res, st')
    /\ List.length (trace st') = 20%nat
    /\ isError res = None
    /\ (given count_only = false ->
        get_prop (payload res) "deals"
        = Arr (flat_map (fun ev => items_of (snd ev)) (trace st')))
    /\ terminated_early res = undefined.
Proof.
  intros Hrun Hceil. exists (deals_result status count_only s').
  rewrite get_deals_run, Hrun.
  destruct (deals_result_ok status count_only s') as (Herr & Hmark & Hdeals).
  destruct (loop_at_ceiling _ _ _ _ _ _ Hrun Hceil) as (_ & Hlen & _).
  repeat split; auto.
  intros Hco. rewrite (Hdeals Hco). f_equal.
  now apply (loop_collects _ _ _ _ _ _ Hrun).
Qed.

Lemma page_items_not_array response :
  isArray (get_prop response "data") = false -> page_items response = [].
Proof.
  intros H. unfold page_items. cbv zeta. now rewrite H, andb_false_r.
Qed.

(** A response that is an object and whose logged values can be printed
    is no fault, as long as its items can be pushed. *)
Lemma no_fault count_only response :
  nullish response = false ->
  printable (get_prop response "success") = true ->
  printable (data_length response) = true ->
  printable (hasMore_of response) = true ->
  (given count_only = false ->
   (List.length (page_items response) <= max_arguments)%nat) ->
  fault max_arguments count_only (Resolved response) = None.
Proof.
  intros Hn Hs Hd Hm Hl. unfold fault. rewrite Hn, Hs, Hd, Hm. cbn [negb].
  destruct (given count_only); cbn [negb andb]; [reflexivity|].
  apply Nat.leb_le in Hl; [|reflexivity]. now rewrite Hl.
Qed.

(** C3, as amended. A page whose [data] is not an array, and whose logged
    values can be printed, adds no item and does not make the loop fail;
    whether the loop goes on is read from the page's pagination metadata
    all the same: it stops at this page when the metadata reports no more
    items, and moves to the next offset when it reports more. *)
Theorem page_without_data fetch count_only fuel s st response w' :
  upstream (fetch (start s) limit) (world st) = (Resolved response, w') ->
  nullish response = false ->
  isArray (get_prop response "data") = false ->
  printable (get_prop response "success") = true ->
  printable (data_length response) = true ->
  printable (hasMore_of response) = true ->
  truthy (hasMore s) = true ->
  exists s',
    page upstream max_arguments fetch count_only s st
    = (Returns (s', 10000 <=? start s'),
       record st (fetch (start s) limit) (Resolved response) w')
    /\ allItems s' = allItems s
    /\ truthy (hasMore s') = truthy (more_flag response)
    /\ start s' = (if truthy (more_flag response) then start s + limit else start s)
    /\ (truthy (more_flag response) = false ->
        while_hasMore upstream max_arguments (S fuel) fetch count_only s st
        = (Returns s', record st (fetch (start s) limit) (Resolved response) w')).
Proof.
  intros Hu Hn Hdata Hps Hpd Hpm Hs.
  exists (next_state count_only s (Resolved response)).
  assert (Hf : fault max_arguments count_only (Resolved response) = None).
  { apply no_fault; auto. intros _. rewrite (page_items_not_array _ Hdata).
    apply Nat.le_0_l. }
  rewrite page_run, while_hasMore_step by exact Hs. cbv zeta.
  rewrite Hu, Hf. split; [reflexivity|].
  assert (Hitems : allItems (next_state count_only s (Resolved response)) = allItems s).
  { cbn [next_state allItems items_of]. rewrite (page_items_not_array _ Hdata).
    rewrite app_nil_r. now destruct (given count_only). }
  assert (Hmore : truthy (hasMore (next_state count_only s (Resolved response)))
                  = truthy (more_flag response)).
  { rewrite truthy_hasMore_next by exact Hf. simpl. now rewrite Hn. }
  split; [exact Hitems|]. split; [exact Hmore|]. split.
  - cbn [next_state start continues]. now rewrite Hn.
  - intros Hlast.
    destruct (10000 <=? start (next_state count_only s (Resolved response)));
      [reflexivity|].
    apply while_hasMore_done. now rewrite Hmore.
Qed.

(** C6, as amended. In a run of get-deals, a page that comes without the
    [more_items_in_collection] metadata is the last one fetched; when its
    logged values can be printed and its items pushed, the invocation
    returns a result that is not an error, holding the items of the pages
    before it followed by the page's own items. *)
Theorem page_without_pagination_is_last
    fuel status count_only w o st' before c response after :
  (20 <= fuel)%nat ->
  get_deals upstream max_arguments fuel status count_only (start_in w) = (o, st') ->
  trace st' = before ++ (c, Resolved response) :: after ->
  nullish response = false ->
  more_flag response = undefined ->
  printable (get_prop response "success") = true ->
  printable (data_length response) = true ->
  (given count_only = false ->
   (List.length (page_items response) <= max_arguments)%nat) ->
  after = []
  /\ exists res,
      o = Returns res
      /\ isError res = None
      /\ (given count_only = false ->
          get_prop (payload res) "deals"
          = Arr (flat_map (fun ev => items_of (snd ev)) before
                 ++ page_items response)).
Proof.
  intros Hfuel Hrun Htrace Hn Hflag Hps Hpd Hlen. rewrite get_deals_run in Hrun.
  pose proof (loop_total (fun start limit => getDeals start limit (status_filter status))
                count_only fuel (start_in w) Hfuel) as Hterm.
  destruct (while_hasMore upstream max_arguments fuel _ count_only loop_init (start_in w))
    as [o' st''] eqn:Hloop.
  assert (st'' = st') as -> by (destruct o'; congruence).
  destruct (loop_shape _ _ _ loop_init _ _ _ eq_refl Hloop Hterm)
    as (evs & last & Htr & _ & Hall & _ & _ & _ & Hend).
  cbn [start_in trace app] in Htr. rewrite Htr in Htrace.
  apply app_last_split in Htrace as [(-> & -> & <-)|Hin].
  2:{ rewrite Forall_forall in Hall. apply Hall in Hin. simpl in Hin.
      rewrite Hn, Hflag in Hin. discriminate. }
  split; [reflexivity|].
  assert (Hf : fault max_arguments count_only (Resolved response) = None).
  { apply no_fault; auto. unfold hasMore_of. now rewrite Hflag. }
  destruct o' as [s'|e|]; cbn [loop_end snd] in Hend.
  - exists (deals_result status count_only s'). inversion Hrun; subst o.
    destruct (deals_result_ok status count_only s') as (Herr & _ & Hdeals).
    repeat split; auto. intros Hco. rewrite (Hdeals Hco). f_equal.
    destruct Hend as (_ & -> & _). rewrite Hco. cbn [loop_init allItems app].
    rewrite flat_map_app. cbn [flat_map snd items_of]. now rewrite app_nil_r.
  - rewrite Hf in Hend. discriminate.
  - contradiction.
Qed.

Lemma firstn_add_skipn {A} (n m : nat) (l : list A) :
  firstn n l ++ firstn m (skipn n l) = firstn (n + m) l.
Proof.
  revert l. induction n as [|n IH]; intros [|a l]; simpl;
    rewrite ?firstn_nil; try reflexivity.
  now rewrite IH.
Qed.

Lemma pages_last (n a : Z) : n <= a + 500 -> pages (n - a) = 1%nat.
Proof.
  intros H. unfold pages.
  assert ((n - a + 499) / 500 <= 1) by (Z.div_mod_to_equations; lia).
  rewrite Z.max_l by lia. reflexivity.
Qed.

Lemma pages_next (n a : Z) : a + 500 < n -> pages (n - a) = S (pages (n - (a + 500))).
Proof.
  intros H. unfold pages.
  assert (E : (n - a + 499) / 500 = 1 + (n - (a + 500) + 499) / 500)
    by (Z.div_mod_to_equations; lia).
  assert (1 <= (n - (a + 500) + 499) / 500) by (Z.div_mod_to_equations; lia).
  rewrite E, !Z.max_r, Z2Nat.inj_add by lia. reflexivity.
Qed.

Lemma printable_Num n : printable (Num n) = true.
Proof. reflexivity. Qed.

(** A well-formed page is no fault once a call can spread a full page. *)
Lemma well_formed_no_fault count_only records start response :
  well_formed_page records start response ->
  (Z.to_nat limit <= max_arguments)%nat ->
  fault max_arguments count_only (Resolved response) = None.
Proof.
  intros (Hn & Hs & Hd & Hm & _) Hmax. apply no_fault; auto.
  - unfold data_length. rewrite Hd. cbn [opt_chain nullish get_prop].
    unfold logical_or. now destruct (truthy _).
  - intros _. unfold page_items. cbv zeta. rewrite Hd.
    cbn [truthy isArray andb elements_of].
    etransitivity; [apply firstn_le_length|exact Hmax].
Qed.

(** Over a well-formed upstream the loop, resumed at any offset with the
    records before it collected, ends with all of them, page after page. *)
Lemma loop_serves fetch records fuel :
  serves upstream fetch records ->
  (Z.to_nat limit <= max_arguments)%nat ->
  Z.of_nat (List.length records) < 10000 ->
  forall s st,
    truthy (hasMore s) = true ->
    0 <= start s ->
    start s = 0 \/ start s < Z.of_nat (List.length records) ->
    allItems s = firstn (Z.to_nat (start s)) records ->
    (0 < fuel)%nat -> 10000 <= start s + limit * Z.of_nat fuel ->
    exists s' st',
      while_hasMore upstream max_arguments fuel fetch None s st = (Returns s', st')
      /\ allItems s' = records
      /\ map fst (trace st')
         = map fst (trace st)
           ++ offsets fetch (start s) (pages (Z.of_nat (List.length records) - start s)).
Proof.
  intros Hserves Hmax Hsize.
  induction fuel as [|fuel IH]; intros s st Hs H0 Hlt Hitems Hpos Hfuel; [inversion Hpos|].
  destruct (Hserves (start s) (world st) H0) as (v & w' & Hu & Hwf).
  pose proof (well_formed_no_fault None records (start s) v Hwf Hmax) as Hf.
  destruct Hwf as (Hn & _ & Hdata & _ & Hflag).
  rewrite while_hasMore_step by exact Hs. cbv zeta. rewrite Hu, Hf.
  set (s1 := next_state None s (Resolved v)).
  set (st1 := record st (fetch (start s) limit) (Resolved v) w').
  assert (Hitems1 : allItems s1
                    = firstn (Z.to_nat (start s) + Z.to_nat limit) records).
  { subst s1. cbn [next_state allItems given items_of]. unfold page_items. cbv zeta.
    rewrite Hdata, Hitems. cbn [truthy isArray andb elements_of].
    apply firstn_add_skipn. }
  assert (Htrace1 : map fst (trace st1) = map fst (trace st) ++ [fetch (start s) limit]).
  { subst st1. unfold record. cbn [trace]. now rewrite map_app. }
  assert (Hmore1 : truthy (hasMore s1) = (start s + limit <? Z.of_nat (List.length records))).
  { subst s1. rewrite truthy_hasMore_next by exact Hf. simpl. now rewrite Hn, Hflag. }
  assert (Hstart1 : start s1 = if start s + limit <? Z.of_nat (List.length records)
                               then start s + limit else start s).
  { subst s1. cbn [next_state start continues]. now rewrite Hn, Hflag. }
  unfold limit in *.
  destruct (start s + 500 <? Z.of_nat (List.length records)) eqn:Hcmp.
  - apply Z.ltb_lt in Hcmp.
    assert (Hc : (10000 <=? start s1) = false) by (apply Z.leb_gt; lia).
    rewrite Hc.
    assert (H4 : allItems s1 = firstn (Z.to_nat (start s1)) records).
    { rewrite Hitems1, Hstart1. f_equal. rewrite Z2Nat.inj_add by lia. reflexivity. }
    assert (H5 : (0 < fuel)%nat) by lia.
    assert (H6 : 10000 <= start s1 + 500 * Z.of_nat fuel) by lia.
    assert (H2 : 0 <= start s1) by lia.
    assert (H3 : start s1 = 0 \/ start s1 < Z.of_nat (List.length records))
      by (right; lia).
    destruct (IH s1 st1 Hmore1 H2 H3 H4 H5 H6) as (s' & st' & Hrun & Hall & Htr).
    exists s', st'. split; [exact Hrun|]. split; [exact Hall|].
    rewrite Htr, Htrace1, Hstart1, <- app_assoc. f_equal.
    rewrite (pages_next _ (start s)) by lia. reflexivity.
  - apply Z.ltb_ge in Hcmp.
    exists s1, st1. split; [|split].
    + destruct (10000 <=? start s1); [reflexivity|].
      apply while_hasMore_done. exact Hmore1.
    + rewrite Hitems1. apply firstn_all2. lia.
    + rewrite Htrace1. f_equal. rewrite pages_last by lia. reflexivity.
Qed.

(** C5. Over an upstream that serves a dataset of fewer than 10000 records
    in well-formed pages, get-deals returns exactly those records, in the
    order served, and fetches the pages at offsets 0, 500, ... once each
    (three pages for 1500 records); a call is taken to spread the 500
    items of a full page. *)
Theorem get_deals_returns_all_records fuel status w records :
  (20 <= fuel)%nat ->
  (Z.to_nat limit <= max_arguments)%nat ->
  Z.of_nat (List.length records) < 10000 ->
  serves upstream (fun start limit => getDeals start limit (status_filter status))
         records ->
  exists st',
    get_deals upstream max_arguments fuel status None (start_in w)
    = (Returns (text_result (JSON_stringify (Obj [
         ("total_count", length_of records);
         ("status_filter", Str (status_filter status));
         ("deals", Arr records)]))), st')
    /\ map fst (trace st')
       = offsets (fun start limit => getDeals start limit (status_filter status))
                 0 (pages (Z.of_nat (List.length records)))
    /\ pages 1500 = 3%nat.
Proof.
  intros Hfuel Hmax Hsize Hserves.
  assert (H6 : 10000 <= start loop_init + limit * Z.of_nat fuel)
    by (unfold limit, loop_init; cbn [start]; lia).
  destruct (loop_serves _ records fuel Hserves Hmax Hsize loop_init (start_in w)
              eq_refl (Z.le_refl 0) (or_introl eq_refl) eq_refl
              ltac:(lia) H6)
    as (s' & st' & Hrun & Hall & Htr).
  exists st'. rewrite get_deals_run, Hrun.
  unfold deals_result. cbn [given]. rewrite Hall.
  split; [reflexivity|]. split; [|reflexivity].
  rewrite Htr. cbn [start_in trace map app loop_init start].
  now rewrite Z.sub_0_r.
Qed.

(** *** Handlers of a single call *)

Section WithToken.

Variable token : string.

Lemma append_assoc (a b c : string) : ((a ++ b) ++ c)%string = (a ++ b ++ c)%string.
Proof.
  induction a as [|x a IH]; simpl; [reflexivity|]. now rewrite IH.
Qed.

(** What a catch block makes of an error, whatever way it writes its
    message. *)
Lemma catch_with (f : string -> string) prefix (e : thrown) st :
  (forall message, f message = (prefix ++ message)%string) ->
  bind (error_message e) (fun message => ret (error_result (f message))) st
  = (report false prefix e, st).
Proof.
  intros Hf. unfold bind, error_message, report, ret, throw.
  destruct (getErrorMessage e); [now rewrite Hf|reflexivity].
Qed.



Lemma get_deal_history_run dealId lim st :
  get_deal_history upstream dealId lim st
  = let c := getDealChangelog dealId undefined (logical_or (optional lim) (Num 100)) in
    let (r, w) := upstream c (world st) in
    (history_of dealId r, record st c r w).
Proof.
  assert (Hcatch : forall e (s : state World),
             bind (error_message e)
               (fun message =>
                  ret (error_result ("Error fetching deal " ++ Number_toString dealId
                                     ++ " history: " ++ message))) s
             = (report false (error_prefix (Get_deal_history dealId None)) e, s)).
  { intros e s. apply catch_with. intros message. cbn [error_prefix].
    rewrite ?append_assoc. reflexivity. }
  unfold get_deal_history, history_of, history_fault, try_catch, record.
  unfold bind at 1, await. cbv zeta.
  destruct (upstream _ (world st)) as [[v|e] w']; cbv beta iota; [|apply Hcatch].
  unfold bind at 1, member.
  destruct (nullish v) eqn:Hn; cbv beta iota; [unfold throw; apply Hcatch|].
  cbn [ret]. unfold bind at 1, to_string, printable.
  fold (data_length v).
  destruct (ToString (data_length v)); cbn [negb]; cbv beta iota;
    [|unfold throw; apply Hcatch].
  unfold ret at 1. cbv beta iota. unfold bind at 1. unfold ret at 1. cbv beta iota.
  unfold bind at 1. fold (next_cursor_of v).
  destruct (truthy (next_cursor_of v)); cbn [andb]; cbv beta iota; [|reflexivity].
  destruct (ToString (next_cursor_of v)); cbn [negb]; cbv beta iota;
    [reflexivity|unfold throw; apply Hcatch].
Qed.

(** *** get-stages *)

Lemma pipeline_stages_run pipeline st :
  pipeline_stages upstream token max_arguments pipeline st
  = match id_fault pipeline with
    | Some e => (Throws e, st)
    | None =>
        let c := fetch_json (stages_url_of token pipeline) in
        let (r, w) := upstream c (world st) in
        (Returns (stages_pushed max_arguments pipeline r), record st c r w)
    end.
Proof.
  unfold pipeline_stages, id_fault, stages_url_of, stages_pushed, try_catch, bind,
    await, member, to_string, printable, spread, array_map, record.
  cbv zeta.
  destruct (nullish pipeline) eqn:Hn; [reflexivity|]. cbn [ret].
  destruct (ToString (get_prop pipeline "id")) as [id|]; [|reflexivity]. cbn [ret].
  destruct (upstream _ (world st)) as [[d|e] w]; cbv beta iota; [|reflexivity].
  destruct (nullish d); [reflexivity|]. cbn [ret].
  destruct (truthy (get_prop d "success")); [|reflexivity].
  destruct (get_prop d "data") as [| |b|n|str|l|props]; try reflexivity.
  - now destruct b.
  - simpl. now destruct (n =? 0).
  - simpl. now destruct (String.eqb str "").
  - cbn [truthy ret]. rewrite length_map.
    now destruct (List.length l <=? max_arguments)%nat.
Qed.

Lemma for_pipelines_run pipelines :
  forall allStages st,
  exists evs out e st',
    for_pipelines upstream token max_arguments pipelines allStages st
    = (match e with
       | None => Returns (allStages ++ out)
       | Some error => Throws error
       end, st')
    /\ trace st' = trace st ++ evs
    /\ fetched_stages token max_arguments pipelines evs out e.
Proof.
  induction pipelines as [|pipeline rest IH]; intros allStages st.
  - exists [], [], None, st. simpl. rewrite !app_nil_r. repeat split. constructor.
  - cbn [for_pipelines]. unfold bind. rewrite pipeline_stages_run.
    destruct (id_fault pipeline) as [e|] eqn:Hid.
    + exists [], [], (Some e), st. rewrite app_nil_r. repeat split.
      now constructor.
    + cbv zeta.
      destruct (upstream _ (world st)) as [r w].
      destruct (IH (allStages ++ stages_pushed max_arguments pipeline r)
                   (record st (fetch_json (stages_url_of token pipeline)) r w))
        as (evs & out & e & st' & Hrun & Htr & Hf).
      exists ((fetch_json (stages_url_of token pipeline), r) :: evs),
             (stages_pushed max_arguments pipeline r ++ out), e, st'.
      unfold record in Htr. cbn [trace] in Htr.
      rewrite Hrun, Htr, <- !app_assoc. repeat split; auto. now constructor.
Qed.

Lemma fetched_stages_calls pipelines evs out e :
  fetched_stages token max_arguments pipelines evs out e ->
  Forall (fun ev => exists url, fst ev = fetch_json url) evs.
Proof.
  induction 1; auto. constructor; [now eexists|assumption].
Qed.

(** The loop over the pipelines is ended only by an entry with an
    [id_fault], and goes through a list that has none. *)
Lemma fetched_stages_end pipelines evs out e :
  fetched_stages token max_arguments pipelines evs out e ->
  match e with
  | Some error => Exists (fun pipeline => id_fault pipeline = Some error) pipelines
  | None => Forall (fun pipeline => id_fault pipeline = None) pipelines
  end.
Proof.
  induction 1 as [|p rest e Hp|p rest r evs out e Hp _ IH].
  - constructor.
  - now constructor.
  - destruct e; [now apply Exists_cons_tl|now constructor].
Qed.

Lemma id_fault_reported pipeline e details prefix :
  id_fault pipeline = Some e ->
  exists message,
    report details prefix e = Returns (error_result (prefix ++ message)).
Proof.
  unfold id_fault. destruct (nullish pipeline);
    [|destruct (printable (get_prop pipeline "id")); [discriminate|]];
    intros [= <-]; eexists; apply report_TypeError.
Qed.


(** get-stages, read off the reply to its first call. *)
Lemma get_stages_run st :
  let (r, w1) := upstream getPipelines (world st) in
  exists o evs st',
    get_stages upstream token max_arguments st = (o, st')
    /\ trace st' = trace st ++ (getPipelines, r) :: evs
    /\ Forall (fun ev => exists url, fst ev = fetch_json url) evs
    /\ (forall e, r = Rejected e ->
         o = report false "Error fetching stages: " e)
    /\ (forall response, r = Resolved response ->
         exists res,
           o = Returns res
           /\ ((exists out, res = text_result (JSON_stringify (Arr out)))
               \/ exists message,
                   res = error_result ("Error fetching stages: " ++ message)))
    /\ (forall response pipelines,
         r = Resolved response -> nullish response = false ->
         logical_or (get_prop response "data") (Arr []) = Arr pipelines ->
         exists out e,
           o = stages_result out e
           /\ fetched_stages token max_arguments pipelines evs out e).
Proof.
  destruct (upstream getPipelines (world st)) as [r w1] eqn:Hu.
  unfold get_stages, try_catch. unfold bind at 1, await. rewrite Hu.
  set (st1 := {| world := w1; trace := trace st ++ [(getPipelines, r)] |}).
  assert (Hcatch : forall e (s : state World),
             bind (error_message e)
               (fun message => ret (error_result ("Error fetching stages: " ++ message))) s
             = (report false "Error fetching stages: " e, s)).
  { intros e s. exact (catch_run false _ e s). }
  assert (Hstop : forall o : outcome tool_result,
             exists evs st',
               (o, st1) = (o, st')
               /\ trace st' = trace st ++ (getPipelines, r) :: evs
               /\ Forall (fun ev => exists url, fst ev = fetch_json url) evs).
  { intros o. exists [], st1. repeat split. constructor. }
  assert (Hgo : forall items,
             exists evs out e st',
               match for_pipelines upstream token max_arguments items [] st1 with
               | (Returns allStages, s) =>
                   (Returns (text_result (JSON_stringify (Arr allStages))), s)
               | (Throws error, s) => (report false "Error fetching stages: " error, s)
               | (OutOfFuel, s) => (OutOfFuel, s)
               end = (stages_result out e, st')
               /\ trace st' = trace st ++ (getPipelines, r) :: evs
               /\ Forall (fun ev => exists url, fst ev = fetch_json url) evs
               /\ fetched_stages token max_arguments items evs out e).
  { intros items.
    destruct (for_pipelines_run items [] st1) as (evs & out & e & st' & Hrun & Htr & Hf).
    exists evs, out, e, st'. rewrite Hrun. subst st1. cbn [trace app] in *.
    rewrite <- app_assoc in Htr. split; [now destruct e|]. repeat split; auto.
    eapply fetched_stages_calls; eassumption. }
  assert (Hshape : forall items evs out e,
             fetched_stages token max_arguments items evs out e ->
             exists res,
               stages_result out e = Returns res
               /\ ((exists out, res = text_result (JSON_stringify (Arr out)))
                   \/ exists message,
                       res = error_result ("Error fetching stages: " ++ message))).
  { intros items evs out e Hf. apply fetched_stages_end in Hf.
    destruct e as [error|]; cbn [stages_result].
    - apply Exists_exists in Hf as (p & _ & Hp).
      destruct (id_fault_reported p error false "Error fetching stages: " Hp)
        as [message ->].
      eexists. split; [reflexivity|]. right. now exists message.
    - eexists. split; [reflexivity|]. left. now exists out. }
  destruct r as [v|e].
  2:{ destruct (Hstop (report false "Error fetching stages: " e))
        as (evs & st' & Heq & Htr & Hall).
      exists (report false "Error fetching stages: " e), evs, st'.
      split; [rewrite <- Heq; apply Hcatch|]. repeat split; auto.
      - now intros e' [= <-].
      - intros ? [=].
      - intros ? ? [=]. }
  unfold bind at 1, member.
  destruct (nullish v) eqn:Hn.
  { destruct (Hstop (report false "Error fetching stages: " (cannot_read v "data")))
      as (evs & st' & Heq & Htr & Hall).
    eexists _, evs, st'.
    split; [unfold throw; rewrite <- Heq; apply Hcatch|]. repeat split; auto.
    - intros ? [=].
    - intros ? _. unfold cannot_read. rewrite report_TypeError.
      eexists. split; [reflexivity|]. right. now eexists.
    - intros ? ? [= <-] H. congruence. }
  cbn [ret]. unfold bind at 1, iterate.
  assert (Hbody : forall items,
             bind (for_pipelines upstream token max_arguments items [])
               (fun allStages => ret (text_result (JSON_stringify (Arr allStages)))) st1
             = match for_pipelines upstream token max_arguments items [] st1 with
               | (Returns allStages, s) =>
                   (Returns (text_result (JSON_stringify (Arr allStages))), s)
               | (Throws error, s) => (Throws error, s)
               | (OutOfFuel, s) => (OutOfFuel, s)
               end).
  { intros items. unfold bind.
    now destruct (for_pipelines _ _ _ _ _ _) as [[?|?|] ?]. }
  assert (Hloop : forall items,
             exists o evs st',
               match bind (for_pipelines upstream token max_arguments items [])
                       (fun allStages =>
                          ret (text_result (JSON_stringify (Arr allStages)))) st1 with
               | (Throws e, s) =>
                   bind (error_message e)
                     (fun message =>
                        ret (error_result ("Error fetching stages: " ++ message))) s
               | other => other
               end = (o, st')
               /\ trace st' = trace st ++ (getPipelines, Resolved v) :: evs
               /\ Forall (fun ev => exists url, fst ev = fetch_json url) evs
               /\ exists out e,
                   o = stages_result out e
                   /\ fetched_stages token max_arguments items evs out e).
  { intros items. destruct (Hgo items) as (evs & out & e & st' & Hrun & Htr & Hall & Hf).
    exists (stages_result out e), evs, st'. rewrite Hbody.
    split; [|split; [exact Htr|split; [exact Hall|now exists out, e]]].
    destruct (for_pipelines upstream token max_arguments items [] st1) as [[?|?|] ?];
      try exact Hrun.
    rewrite Hcatch. exact Hrun. }
  destruct (logical_or (get_prop v "data") (Arr [])) as [| |b|n|str|l|props] eqn:Hp;
    cbn [throw ret].
  6:{ destruct (Hloop l) as (o & evs & st' & Hrun & Htr & Hall & out & e & -> & Hf).
      exists (stages_result out e), evs, st'. split; [exact Hrun|].
      repeat split; auto.
      - intros ? [=].
      - intros ? _. exact (Hshape _ _ _ _ Hf).
      - intros ? ? [= <-] _ Hq. rewrite Hp in Hq. injection Hq as <-.
        now exists out, e. }
  5:{ destruct (Hloop (map Str (code_points str)))
        as (o & evs & st' & Hrun & Htr & Hall & out & e & -> & Hf).
      exists (stages_result out e), evs, st'. split; [exact Hrun|].
      repeat split; auto.
      - intros ? [=].
      - intros ? _. exact (Hshape _ _ _ _ Hf).
      - intros ? ? [= <-] _ Hq. rewrite Hp in Hq. discriminate. }
  all: destruct (Hstop (report false "Error fetching stages: "
                          (TypeError "pipelines is not iterable")))
         as (evs & st' & Heq & Htr & Hall);
       eexists _, evs, st';
       (split; [rewrite <- Heq; apply Hcatch|]); repeat split; auto;
       [intros ? [=]
       |intros ? _; rewrite report_TypeError; eexists; split; [reflexivity|];
        right; now eexists
       |intros ? ? [= <-] _ Hq; rewrite Hp in Hq; discriminate].
Qed.






(** C10, as amended. get-deal-history awaits exactly one call, the
    changelog of the deal with no cursor and the given limit, 100 when none
    is given, whatever the response holds.  For a response that is an
    object: without [data], and with a cursor, if any, that can be
    printed, the result is not an error and has [history_count] 0 and an
    empty [history]; without [next_cursor], and with a length of [data]
    that can be printed, the result is not an error and has [next_cursor]
    null.  A response that is [null] or [undefined] gives the error
    result. *)
Theorem get_deal_history_single_request dealId lim w :
  exists r w',
    upstream (getDealChangelog dealId undefined (logical_or (optional lim) (Num 100))) w
    = (r, w')
    /\ get_deal_history upstream dealId lim (start_in w)
       = (history_of dealId r,
          {| world := w';
             trace := [(getDealChangelog dealId undefined
                          (logical_or (optional lim) (Num 100)), r)] |})
    /\ (lim = None -> logical_or (optional lim) (Num 100) = Num 100)
    /\ (forall response,
        r = Resolved response -> nullish response = false ->
        (nullish (get_prop response "data") = true ->
         (truthy (next_cursor_of response) = true ->
          printable (next_cursor_of response) = true) ->
         exists res,
           history_of dealId r = Returns res
           /\ isError res = None
           /\ get_prop (payload res) "history_count" = Num 0
           /\ get_prop (payload res) "history" = Arr [])
        /\ (nullish (next_cursor_of response) = true ->
            printable (data_length response) = true ->
            exists res,
              history_of dealId r = Returns res
              /\ isError res = None
              /\ get_prop (payload res) "next_cursor" = null))
    /\ (forall response,
        r = Resolved response -> nullish response = true ->
        history_of dealId r
        = Returns (error_result
                     (error_prefix (Get_deal_history dealId lim)
                      ++ "Cannot read properties of " ++ nullish_name response
                      ++ " (reading 'data')"))).
Proof.
  rewrite get_deal_history_run. cbv zeta. cbn [start_in world].
  destruct (upstream _ w) as [r w'].
  exists r, w'. split; [reflexivity|]. split; [reflexivity|].
  split; [now intros ->|]. split.
  2:{ intros response -> Hn. unfold history_of, history_fault. rewrite Hn.
      unfold cannot_read. now rewrite report_TypeError. }
  intros response -> Hn. unfold history_of, history_fault. rewrite Hn. split.
  - intros Hd Hc.
    assert (Hlen : data_length response = Num 0).
    { unfold data_length. destruct (get_prop response "data"); try discriminate Hd;
        reflexivity. }
    rewrite Hlen. cbn [printable ToString negb].
    assert (Hcur : truthy (next_cursor_of response)
                   && negb (printable (next_cursor_of response)) = false).
    { destruct (truthy (next_cursor_of response)); [|reflexivity].
      now rewrite (Hc eq_refl). }
    rewrite Hcur. eexists. split; [reflexivity|]. split; [reflexivity|].
    destruct (get_prop response "data"); try discriminate Hd; now split.
  - intros Hc Hp. rewrite Hp. cbn [negb].
    assert (Hcur : truthy (next_cursor_of response) = false).
    { destruct (next_cursor_of response); try discriminate Hc; reflexivity. }
    rewrite Hcur. cbn [andb]. eexists. split; [reflexivity|]. split; [reflexivity|].
    unfold text_result, payload, history_result. cbn [content].
    fold (next_cursor_of response).
    destruct (next_cursor_of response); try discriminate Hc; reflexivity.
Qed.

End WithToken.

End Properties.

(** ** The properties on the sample upstreams *)

Lemma page_of_well_formed records start :
  well_formed_page records start (page_of records start limit).
Proof.
  unfold well_formed_page, page_of, hasMore_of, more_flag, more_items_in_collection,
    pagination.
  repeat split; cbn; destruct (start + limit <? Z.of_nat (List.length records));
    reflexivity.
Qed.

Lemma serving_serves records status :
  serves (serving records) (fun start limit => getDeals start limit status) records.
Proof.
  intros start w _. exists (page_of records start limit), w.
  split; [reflexivity|apply page_of_well_formed].
Qed.

(** C1. With [count_only], get-deals reports the offset of the last page it
    fetched instead of the number of deals: over an upstream with three
    deals, served in one page, it reports 0 where collecting returns the
    three (a call is taken to spread three items at least). *)
Theorem count_only_reports_last_offset max_arguments :
  (3 <= max_arguments)%nat ->
  fst (get_deals (serving (numbered 3)) max_arguments 20 None (Some true) (start_in tt))
  = Returns (text_result (JSON_stringify (Obj [
      ("total_count", Num 0);
      ("status_filter", Str "all_not_deleted");
      ("message", Str "Found 0 deals")])))
  /\ fst (get_deals (serving (numbered 3)) max_arguments 20 None (Some false)
            (start_in tt))
     = Returns (text_result (JSON_stringify (Obj [
         ("total_count", Num 3);
         ("status_filter", Str "all_not_deleted");
         ("deals", Arr [Num 0; Num 1; Num 2])])))
  /\ map fst (trace (snd (get_deals (serving (numbered 3)) max_arguments 20 None
                            (Some true) (start_in tt))))
     = map fst (trace (snd (get_deals (serving (numbered 3)) max_arguments 20 None
                              (Some false) (start_in tt)))).
Proof.
  intros H. destruct max_arguments as [|[|[|m]]]; try lia.
  repeat split.
Qed.

Lemma count_only_reports_last_offset_witness :
  (3 <= 1000)%nat
  /\ fst (get_deals (serving (numbered 3)) 1000 20 None (Some true) (start_in tt))
     = Returns (text_result (JSON_stringify (Obj [
         ("total_count", Num 0);
         ("status_filter", Str "all_not_deleted");
         ("message", Str "Found 0 deals")])))
  /\ fst (get_deals (serving (numbered 3)) 1000 20 None (Some false) (start_in tt))
     = Returns (text_result (JSON_stringify (Obj [
         ("total_count", Num 3);
         ("status_filter", Str "all_not_deleted");
         ("deals", Arr [Num 0; Num 1; Num 2])]))).
Proof.
  assert (H : (3 <= 1000)%nat) by (apply Nat.leb_le; reflexivity).
  split; [exact H|].
  destruct (count_only_reports_last_offset 1000 H) as (H1 & H2 & _).
  split; [exact H1|exact H2].
Defined.

(** C2, as stated, fails: at the ceiling the result carries no
    [terminated_early] marker. *)
Lemma get_deals_at_ceiling_unmarked :
  exists s' st' res,
    while_hasMore endless 1000 20
      (fun start limit => getDeals start limit (status_filter None))
      None loop_init (start_in tt) = (Returns s', st')
    /\ 10000 <= start s'
    /\ get_deals endless 1000 20 None None (start_in tt) = (Returns res, st')
    /\ isError res = None
    /\ terminated_early res <> Bool true.
Proof.
  eexists _, _, _. split; [vm_compute; reflexivity|].
  split; [vm_compute; discriminate|].
  split; [vm_compute; reflexivity|].
  split; [reflexivity|]. vm_compute. discriminate.
Qed.

Lemma get_deals_at_ceiling_witness :
  exists s' st',
    while_hasMore endless 1000 20
      (fun start limit => getDeals start limit (status_filter None))
      None loop_init (start_in tt) = (Returns s', st')
    /\ 10000 <= start s'
    /\ exists res,
        get_deals endless 1000 20 None None (start_in tt) = (Returns res, st')
        /\ List.length (trace st') = 20%nat
        /\ isError res = None
        /\ (given None = false ->
            get_prop (payload res) "deals"
            = Arr (flat_map (fun ev => items_of (snd ev)) (trace st')))
        /\ terminated_early res = undefined.
Proof.
  assert (H : exists s' st',
             while_hasMore endless 1000 20
               (fun start limit => getDeals start limit (status_filter None))
               None loop_init (start_in tt) = (Returns s', st')
             /\ 10000 <= start s').
  { eexists _, _. split; [vm_compute; reflexivity|vm_compute; discriminate]. }
  destruct H as (s' & st' & Hrun & Hceil).
  exists s', st'. split; [exact Hrun|]. split; [exact Hceil|].
  exact (get_deals_at_ceiling endless 1000 20 None None tt s' st' Hrun Hceil).
Defined.

(** C3, as stated, fails: a first page without [data] that reports more
    items does not end the loop; the next page is fetched and its record
    returned. *)
Lemma page_without_data_goes_on :
  fst (no_data_then_one (getDeals 0 500 "all_not_deleted") tt)
  = Resolved (Obj [("success", Bool true); ("data", null);
                   ("additional_data", pagination true)])
  /\ (exists s' st',
        page no_data_then_one 1000
          (fun start limit => getDeals start limit "all_not_deleted")
          None loop_init (start_in tt) = (Returns (s', false), st')
        /\ truthy (hasMore s') = true
        /\ start s' = 500)
  /\ exists st',
      get_deals no_data_then_one 1000 20 None None (start_in tt)
      = (Returns (text_result (JSON_stringify (Obj [
           ("total_count", Num 1);
           ("status_filter", Str "all_not_deleted");
           ("deals", Arr [Str "record"])]))), st')
      /\ map fst (trace st')
         = [getDeals 0 500 "all_not_deleted"; getDeals 500 500 "all_not_deleted"].
Proof.
  split; [reflexivity|]. split.
  - eexists _, _. split; [vm_compute; reflexivity|]. split; reflexivity.
  - eexists. split; [vm_compute; reflexivity|reflexivity].
Qed.

Lemma page_without_data_witness :
  let fetch := fun start limit => getDeals start limit "all_not_deleted" in
  let response := Obj [("success", Bool true); ("data", null);
                       ("additional_data", pagination true)] in
  no_data_then_one (fetch (start loop_init) limit) (world (start_in tt))
  = (Resolved response, tt)
  /\ nullish response = false
  /\ isArray (get_prop response "data") = false
  /\ printable (get_prop response "success") = true
  /\ printable (data_length response) = true
  /\ printable (hasMore_of response) = true
  /\ truthy (hasMore loop_init) = true
  /\ exists s',
      page no_data_then_one 1000 fetch None loop_init (start_in tt)
      = (Returns (s', 10000 <=? start s'),
         record (start_in tt) (fetch (start loop_init) limit) (Resolved response) tt)
      /\ allItems s' = allItems loop_init
      /\ truthy (hasMore s') = truthy (more_flag response)
      /\ start s'
         = (if truthy (more_flag response) then start loop_init + limit
            else start loop_init)
      /\ (truthy (more_flag response) = false ->
          while_hasMore no_data_then_one 1000 1 fetch None loop_init (start_in tt)
          = (Returns s',
             record (start_in tt) (fetch (start loop_init) limit)
                    (Resolved response) tt)).
Proof.
  intros fetch response.
  split; [reflexivity|]. split; [reflexivity|]. split; [reflexivity|].
  split; [reflexivity|]. split; [reflexivity|]. split; [reflexivity|].
  split; [reflexivity|].
  exact (page_without_data no_data_then_one 1000 fetch None 0 loop_init (start_in tt)
           response tt eq_refl eq_refl eq_refl eq_refl eq_refl eq_refl eq_refl).
Defined.

Lemma pagination_stops_at_ceiling_witness :
  (20 <= 20)%nat
  /\ (forall c w', continues (fst (endless c w')) = true)
  /\ (forall c w', fault 1000 (Some true) (fst (endless c w')) = None)
  /\ exists res st' n,
      get_deals endless 1000 20 (Some open) (Some true) (start_in tt)
      = (Returns res, st')
      /\ (1 <= n <= 20)%nat
      /\ map fst (trace st')
         = offsets (fun start limit => getDeals start limit "open") 0 n
      /\ (isError res = None <-> n = 20%nat /\ exists s', start s' = 10000
                                   /\ res = deals_result (Some open) (Some true) s')
      /\ isError res = None.
Proof.
  assert (H2 : forall c w', continues (fst (endless c w')) = true) by reflexivity.
  assert (H3 : forall c w', fault 1000 (Some true) (fst (endless c w')) = None)
    by reflexivity.
  split; [exact (le_n 20)|]. split; [exact H2|]. split; [exact H3|].
  destruct (pagination_stops_at_ceiling endless 1000 20 (Some open) (Some true) tt
              (le_n 20) H2) as ((res & st' & n & Hrun & Hn & Hoff & Hiff & Hok) & _).
  exists res, st', n. split; [exact Hrun|]. split; [exact Hn|].
  split; [exact Hoff|]. split; [exact Hiff|exact (Hok H3)].
Defined.

(** Pages that report more items for ever and cannot be logged: the first
    one makes the handlers fail, after one fetch. *)
Example pagination_stops_at_unprintable_page :
  get_persons endless_unprintable 1000 20 (start_in tt)
  = (Returns (error_result
       "Error fetching persons: Cannot convert object to primitive value"),
     {| world := tt;
        trace := [(getPersons 0 500, fst (endless_unprintable (getPersons 0 500) tt))] |}).
Proof.
  reflexivity.
Qed.

Lemma get_deals_returns_all_records_witness :
  (20 <= 20)%nat
  /\ (Z.to_nat limit <= 1000)%nat
  /\ Z.of_nat (List.length (numbered 1500)) < 10000
  /\ serves (serving (numbered 1500))
            (fun start limit => getDeals start limit (status_filter None))
            (numbered 1500)
  /\ exists st',
      get_deals (serving (numbered 1500)) 1000 20 None None (start_in tt)
      = (Returns (text_result (JSON_stringify (Obj [
           ("total_count", Num 1500);
           ("status_filter", Str "all_not_deleted");
           ("deals", Arr (numbered 1500))]))), st')
      /\ map fst (trace st')
         = [getDeals 0 500 "all_not_deleted"; getDeals 500 500 "all_not_deleted";
            getDeals 1000 500 "all_not_deleted"].
Proof.
  assert (H1 : (Z.to_nat limit <= 1000)%nat) by (apply Nat.leb_le; reflexivity).
  assert (H2 : Z.of_nat (List.length (numbered 1500)) < 10000) by reflexivity.
  split; [exact (le_n 20)|]. split; [exact H1|]. split; [exact H2|].
  split; [apply serving_serves|].
  destruct (get_deals_returns_all_records (serving (numbered 1500)) 1000 20 None tt
              (numbered 1500) (le_n 20) H1 H2 (serving_serves _ _))
    as (st' & Hrun & Htr & _).
  exists st'. split; [exact Hrun|]. rewrite Htr. reflexivity.
Defined.

(** C6, as stated, fails: a page without pagination metadata still
    contributes its own items. *)
Lemma page_without_pagination_keeps_items :
  more_flag (Obj [("success", Bool true); ("data", Arr [Str "record"])]) = undefined
  /\ get_deals bare_page 1000 20 None None (start_in tt)
     = (Returns (text_result (JSON_stringify (Obj [
          ("total_count", Num 1);
          ("status_filter", Str "all_not_deleted");
          ("deals", Arr [Str "record"])]))),
        {| world := tt;
           trace := [(getDeals 0 500 "all_not_deleted",
                      Resolved (Obj [("success", Bool true);
                                     ("data", Arr [Str "record"])]))] |}).
Proof.
  split; reflexivity.
Qed.

Lemma page_without_pagination_is_last_witness :
  let response := Obj [("success", Bool true); ("data", Arr [Str "record"])] in
  let run := get_deals bare_page 1000 20 None None (start_in tt) in
  (20 <= 20)%nat
  /\ get_deals bare_page 1000 20 None None (start_in tt) = (fst run, snd run)
  /\ trace (snd run) = [] ++ (getDeals 0 500 "all_not_deleted", Resolved response) :: []
  /\ nullish response = false
  /\ more_flag response = undefined
  /\ printable (get_prop response "success") = true
  /\ printable (data_length response) = true
  /\ (given None = false -> (List.length (page_items response) <= 1000)%nat)
  /\ exists res,
      fst run = Returns res
      /\ isError res = None
      /\ (given None = false ->
          get_prop (payload res) "deals"
          = Arr (flat_map (fun ev : event => items_of (snd ev)) []
                 ++ page_items response)).
Proof.
  intros response run.
  assert (H2 : get_deals bare_page 1000 20 None None (start_in tt) = (fst run, snd run))
    by reflexivity.
  assert (H3 : trace (snd run)
               = [] ++ (getDeals 0 500 "all_not_deleted", Resolved response) :: [])
    by reflexivity.
  assert (H8 : given None = false -> (List.length (page_items response) <= 1000)%nat)
    by (intros _; apply Nat.leb_le; reflexivity).
  split; [exact (le_n 20)|]. split; [exact H2|]. split; [exact H3|].
  split; [reflexivity|]. split; [reflexivity|]. split; [reflexivity|].
  split; [reflexivity|]. split; [exact H8|].
  exact (proj2 (page_without_pagination_is_last bare_page 1000 20 None None tt
                  (fst run) (snd run) [] _ response [] (le_n 20) H2 H3
                  eq_refl eq_refl eq_refl eq_refl H8)).
Defined.

(** C7 at a rejection that cannot be serialised: get-deals throws, where
    get-persons, whose catch block does not serialise the error, returns
    its error result. *)
Lemma get_deals_fails_on_rejected_fetch_witness :
  let run := get_deals unavailable 1000 20 None None (start_in tt) in
  let c := getDeals 0 500 "all_not_deleted" in
  let e := circular_error "Service Unavailable" in
  (20 <= 20)%nat
  /\ get_deals unavailable 1000 20 None None (start_in tt) = (fst run, snd run)
  /\ In (c, Rejected e) (trace (snd run))
  /\ stringify_failure e = Some not_serialisable
  /\ getErrorMessage e = inl "Service Unavailable"
  /\ fst run = Throws not_serialisable
  /\ trace (snd run) = [(c, Rejected e)]
  /\ fst (get_persons unavailable 1000 20 (start_in tt))
     = Returns (error_result "Error fetching persons: Service Unavailable").
Proof.
  intros run c e.
  assert (H2 : get_deals unavailable 1000 20 None None (start_in tt)
               = (fst run, snd run)) by reflexivity.
  assert (H3 : In (c, Rejected e) (trace (snd run))) by (left; reflexivity).
  split; [exact (le_n 20)|]. split; [exact H2|]. split; [exact H3|].
  split; [reflexivity|]. split; [reflexivity|].
  destruct (get_deals_fails_on_rejected_fetch unavailable 1000 20 None None tt
              (fst run) (snd run) c e (le_n 20) H2 H3) as (_ & _ & Hthrows & _).
  split; [exact (Hthrows not_serialisable eq_refl)|]. split; reflexivity.
Defined.

(** get-deals over a rejection that can be serialised and has a message:
    the third fetch fails, and the two records fetched before it are not
    returned. *)
Example get_deals_reports_rejection :
  fst (get_deals flaky 1000 20 None None (start_in 0%nat))
  = Returns (error_result "Error fetching deals: Service Unavailable")
  /\ map fst (trace (snd (get_deals flaky 1000 20 None None (start_in 0%nat))))
     = [getDeals 0 500 "all_not_deleted"; getDeals 500 500 "all_not_deleted";
        getDeals 1000 500 "all_not_deleted"]
  /\ world (snd (get_deals flaky 1000 20 None None (start_in 0%nat))) = 3%nat.
Proof.
  repeat split.
Qed.




(** A [null] entry among the pipelines ends get-stages with its error
    result: the stages of the pipelines after it are not fetched, and
    those fetched before it are not returned. *)
Example get_stages_null_pipeline :
  get_stages pipelines_with_null "token" 1000 (start_in tt)
  = (Returns (error_result
       "Error fetching stages: Cannot read properties of null (reading 'id')"),
     {| world := tt;
        trace := [(getPipelines, fst (pipelines_with_null getPipelines tt));
                  (fetch_json (stages_url "token" "1"),
                   Rejected (Error "fetch failed"))] |}).
Proof.
  reflexivity.
Qed.

(** C10, as stated, fails: a response without [data] whose cursor cannot
    be printed, and a response that is [null], both give the error
    result. *)
Lemma get_deal_history_can_fail :
  nullish (get_prop (Obj [("success", Bool true);
                          ("additional_data", Obj [("next_cursor", unprintable)])])
                    "data") = true
  /\ get_deal_history changelog_with_unprintable_cursor 42 None (start_in tt)
     = (Returns (error_result
          "Error fetching deal 42 history: Cannot convert object to primitive value"),
        {| world := tt;
           trace := [(getDealChangelog 42 undefined (Num 100),
                      Resolved (Obj [("success", Bool true);
                                     ("additional_data",
                                      Obj [("next_cursor", unprintable)])]))] |})
  /\ get_deal_history answering_null 42 None (start_in tt)
     = (Returns (error_result
          "Error fetching deal 42 history: Cannot read properties of null (reading 'data')"),
        {| world := tt;
           trace := [(getDealChangelog 42 undefined (Num 100), Resolved null)] |}).
Proof.
  repeat split.
Qed.

(** get-deal-history over a changelog response without [data]. *)
Example get_deal_history_empty :
  get_deal_history empty_changelog 42 None (start_in tt)
  = (Returns (text_result (JSON_stringify (Obj [
       ("deal_id", Num 42);
       ("history_count", Num 0);
       ("next_cursor", null);
       ("history", Arr [])]))),
     {| world := tt;
        trace := [(getDealChangelog 42 undefined (Num 100),
                   Resolved (Obj [("success", Bool true)]))] |}).
Proof.
  reflexivity.
Qed.

Lemma get_deal_history_single_request_witness :
  let response := Obj [("success", Bool true)] in
  nullish response = false
  /\ nullish (get_prop response "data") = true
  /\ (truthy (next_cursor_of response) = true ->
      printable (next_cursor_of response) = true)
  /\ nullish (next_cursor_of response) = true
  /\ printable (data_length response) = true
  /\ map fst (trace (snd (get_deal_history empty_changelog 42 None (start_in tt))))
     = [getDealChangelog 42 undefined (Num 100)]
  /\ exists res,
      fst (get_deal_history empty_changelog 42 None (start_in tt)) = Returns res
      /\ isError res = None
      /\ get_prop (payload res) "history_count" = Num 0
      /\ get_prop (payload res) "history" = Arr []
      /\ get_prop (payload res) "next_cursor" = null.
Proof.
  intros response.
  assert (H3 : truthy (next_cursor_of response) = true ->
               printable (next_cursor_of response) = true) by discriminate.
  destruct (get_deal_history_single_request empty_changelog 42 None tt)
    as (r & w' & Hu & Hrun & Hlim & Hres & _).
  injection Hu as <- <-.
  destruct (Hres response eq_refl eq_refl) as (Hdata & Hcursor).
  destruct (Hdata eq_refl H3) as (res & Hr & Herr & Hcount & Hhistory).
  destruct (Hcursor eq_refl eq_refl) as (res' & Hr' & _ & Hnull).
  split; [reflexivity|]. split; [reflexivity|]. split; [exact H3|].
  split; [reflexivity|]. split; [reflexivity|].
  split; [rewrite Hrun; reflexivity|].
  exists res. rewrite Hrun. split; [exact Hr|]. split; [exact Herr|].
  split; [exact Hcount|]. split; [exact Hhistory|].
  rewrite Hr in Hr'. injection Hr' as <-. exact Hnull.
Defined.

(** ** Further properties of the handlers *)

Section More.

Context {World : Type}.
Variable upstream : call -> World -> reply * World.
Variable max_arguments : nat.
Variable token : string.

(** What a catch block answers: its error result, or what is thrown by
    printing an error without a string message or, where it serialises
    the error, by serialising it. *)
Lemma report_shape details prefix e :
  match report details prefix e with
  | Returns res => exists message, res = error_result (prefix ++ message)
  | Throws failure =>
      getErrorMessage e = inr failure
      \/ (details = true /\ stringify_failure e = Some failure)
  | OutOfFuel => False
  end.
Proof.
  unfold report. destruct details.
  - destruct (stringify_failure e); [now right|].
    destruct (getErrorMessage e); [now eexists|now left].
  - destruct (getErrorMessage e); [now eexists|now left].
Qed.

Lemma report_returns_or_throws details prefix e :
  report details prefix e <> OutOfFuel.
Proof.
  pose proof (report_shape details prefix e) as H. intros E. now rewrite E in H.
Qed.

(** X1. Whatever the upstream answers, get-deals, get-persons and
    get-organizations each end, by returning or by throwing from their
    catch block, after at least one and at most twenty fetches, made at
    the offsets 0, 500, 1000, ... in order, all with limit 500 (and, for
    get-deals, the same status filter). *)
Theorem paginated_request_sequence fuel status count_only w :
  (20 <= fuel)%nat ->
  (exists o st' n,
      get_deals upstream max_arguments fuel status count_only (start_in w) = (o, st')
      /\ o <> OutOfFuel
      /\ (1 <= n <= 20)%nat
      /\ map fst (trace st')
         = offsets (fun start limit => getDeals start limit (status_filter status)) 0 n)
  /\ (exists o st' n,
      get_persons upstream max_arguments fuel (start_in w) = (o, st')
      /\ o <> OutOfFuel
      /\ (1 <= n <= 20)%nat
      /\ map fst (trace st') = offsets getPersons 0 n)
  /\ (exists o st' n,
      get_organizations upstream max_arguments fuel (start_in w) = (o, st')
      /\ o <> OutOfFuel
      /\ (1 <= n <= 20)%nat
      /\ map fst (trace st') = offsets getOrganizations 0 n).
Proof.
  intros Hfuel. split; [|split].
  - destruct (loop_requests upstream max_arguments
                (fun start limit => getDeals start limit (status_filter status))
                count_only fuel w Hfuel) as (o & st' & n & Hrun & Ho & Hn & Hoff).
    rewrite get_deals_run, Hrun.
    destruct o as [s|e|]; [| |now elim Ho]; eexists _, st', n;
      (split; [reflexivity|]); (split; [|now split]);
      [discriminate|apply report_returns_or_throws].
  - destruct (loop_requests upstream max_arguments getPersons None fuel w Hfuel)
      as (o & st' & n & Hrun & Ho & Hn & Hoff).
    rewrite get_persons_run, Hrun.
    destruct o as [s|e|]; [| |now elim Ho]; eexists _, st', n;
      (split; [reflexivity|]); (split; [|now split]);
      [discriminate|apply report_returns_or_throws].
  - destruct (loop_requests upstream max_arguments getOrganizations None fuel w Hfuel)
      as (o & st' & n & Hrun & Ho & Hn & Hoff).
    rewrite get_organizations_run, Hrun.
    destruct o as [s|e|]; [| |now elim Ho]; eexists _, st', n;
      (split; [reflexivity|]); (split; [|now split]);
      [discriminate|apply report_returns_or_throws].
Qed.

(** On a page whose items can be pushed, the loop body throws with
    [count_only] exactly when it throws without. *)
Lemma fault_count_only c1 c2 v :
  (List.length (page_items v) <= max_arguments)%nat ->
  fault max_arguments c1 (Resolved v) = fault max_arguments c2 (Resolved v).
Proof.
  intros H. apply Nat.leb_le in H. unfold fault. rewrite H. cbn [negb].
  now rewrite !andb_false_r.
Qed.

(** Two runs of the loop that differ only in [count_only] and in what they
    have collected go through the same pages and end alike, as long as the
    items of every page can be pushed. *)
Lemma loop_ignores_count_only fetch c1 c2 fuel :
  (forall c w' v,
     fst (upstream c w') = Resolved v ->
     (List.length (page_items v) <= max_arguments)%nat) ->
  forall s1 s2 st,
    same_control s1 s2 ->
    match while_hasMore upstream max_arguments fuel fetch c1 s1 st,
          while_hasMore upstream max_arguments fuel fetch c2 s2 st with
    | (Returns s1', st1), (Returns s2', st2) => same_control s1' s2' /\ st1 = st2
    | (Throws e1, st1), (Throws e2, st2) => e1 = e2 /\ st1 = st2
    | (OutOfFuel, st1), (OutOfFuel, st2) => st1 = st2
    | _, _ => False
    end.
Proof.
  intros Hfit.
  induction fuel as [|fuel IH]; intros s1 s2 st (Hstart & Hmore & Hpages).
  - simpl. rewrite <- Hmore. destruct (truthy (hasMore s1)); simpl; auto.
    repeat split; auto.
  - destruct (truthy (hasMore s1)) eqn:E.
    2:{ rewrite !while_hasMore_done by congruence. repeat split; auto. }
    rewrite !while_hasMore_step by congruence. cbv zeta. rewrite <- Hstart.
    destruct (upstream (fetch (start s1) limit) (world st)) as [r w'] eqn:Hu.
    assert (Hf : fault max_arguments c1 r = fault max_arguments c2 r).
    { destruct r as [v|e]; [|reflexivity]. apply fault_count_only.
      apply (Hfit (fetch (start s1) limit) (world st)). now rewrite Hu. }
    rewrite <- Hf.
    destruct (fault max_arguments c1 r); [now split|].
    assert (Hsame : same_control (next_state c1 s1 r) (next_state c2 s2 r)).
    { unfold same_control, next_state. cbn [start hasMore pageCount].
      rewrite Hstart, Hpages. repeat split. }
    destruct Hsame as (Hs' & Hm' & Hp'). rewrite <- Hs'.
    destruct (10000 <=? start (next_state c1 s1 r)).
    + repeat split; auto.
    + apply IH. repeat split; auto.
Qed.

(** X2. Over an upstream whose pages never hold more items than a call
    can spread, [count_only] changes what get-deals answers, never what it
    fetches: with and without it the handler makes the same calls, leaves
    the upstream in the same state, and fails in the same cases, with the
    same error result or the same error thrown. *)
Theorem count_only_makes_the_same_calls fuel status c1 c2 w :
  (20 <= fuel)%nat ->
  (forall c w' v,
     fst (upstream c w') = Resolved v ->
     (List.length (page_items v) <= max_arguments)%nat) ->
  exists o1 o2 st',
    get_deals upstream max_arguments fuel status c1 (start_in w) = (o1, st')
    /\ get_deals upstream max_arguments fuel status c2 (start_in w) = (o2, st')
    /\ match o1, o2 with
       | Returns res1, Returns res2 =>
           isError res1 = isError res2 /\ (isError res1 = Some true -> res1 = res2)
       | Throws e1, Throws e2 => e1 = e2
       | _, _ => False
       end.
Proof.
  intros Hfuel Hfit.
  pose proof (loop_ignores_count_only
                (fun start limit => getDeals start limit (status_filter status))
                c1 c2 fuel Hfit loop_init loop_init (start_in w)
                (conj eq_refl (conj eq_refl eq_refl))) as H.
  pose proof (loop_total upstream max_arguments
                (fun start limit => getDeals start limit (status_filter status))
                c1 fuel (start_in w) Hfuel) as Hterm.
  rewrite !get_deals_run.
  destruct (while_hasMore upstream max_arguments fuel _ c1 loop_init (start_in w))
    as [[s1|e1|] st1];
    destruct (while_hasMore upstream max_arguments fuel _ c2 loop_init (start_in w))
      as [[s2|e2|] st2];
    try contradiction; try (now elim Hterm).
  - destruct H as [_ <-]. eexists _, _, st1. repeat split.
    + unfold deals_result. now destruct (given c1), (given c2).
    + unfold deals_result. destruct (given c1); discriminate.
  - destruct H as [<- <-]. eexists _, _, st1. split; [reflexivity|].
    split; [reflexivity|].
    pose proof (report_shape true "Error fetching deals: " e1) as Hs.
    destruct (report true "Error fetching deals: " e1); [now split|reflexivity|exact Hs].
Qed.

(** X3. Whatever the upstream answers, a collecting run of get-deals,
    get-persons or get-organizations ends, and when it returns, it returns
    either an error result or exactly the items of the pages it fetched,
    page after page in the order fetched, with [total_count] their
    number. *)
Theorem collected_items_follow_the_pages fuel status count_only w :
  (20 <= fuel)%nat ->
  given count_only = false ->
  (exists o st',
      get_deals upstream max_arguments fuel status count_only (start_in w) = (o, st')
      /\ o <> OutOfFuel
      /\ forall res, o = Returns res ->
           isError res = Some true
           \/ res = collected_deals status (items_fetched (trace st')))
  /\ (exists o st',
      get_persons upstream max_arguments fuel (start_in w) = (o, st')
      /\ o <> OutOfFuel
      /\ forall res, o = Returns res ->
           isError res = Some true
           \/ res = collected_persons (items_fetched (trace st')))
  /\ (exists o st',
      get_organizations upstream max_arguments fuel (start_in w) = (o, st')
      /\ o <> OutOfFuel
      /\ forall res, o = Returns res ->
           isError res = Some true
           \/ res = collected_organizations (items_fetched (trace st'))).
Proof.
  intros Hfuel Hco.
  assert (Hgen : forall fetch co details prefix (mk : loop_state -> tool_result)
                        (collected : list value -> tool_result),
             given co = false ->
             (forall s, mk s = collected (allItems s)) ->
             exists o st',
               match while_hasMore upstream max_arguments fuel fetch co loop_init
                       (start_in w) with
               | (Returns s, st1) => (Returns (mk s), st1)
               | (Throws e, st1) => (report details prefix e, st1)
               | (OutOfFuel, st1) => (OutOfFuel, st1)
               end = (o, st')
               /\ o <> OutOfFuel
               /\ forall res, o = Returns res ->
                    isError res = Some true
                    \/ res = collected (items_fetched (trace st'))).
  { intros fetch co details prefix mk collected Hgiven Hmk.
    pose proof (loop_total upstream max_arguments fetch co fuel (start_in w) Hfuel)
      as Hterm.
    destruct (while_hasMore upstream max_arguments fuel fetch co loop_init (start_in w))
      as [[s|e|] st'] eqn:Hrun; [| |now elim Hterm].
    - eexists _, st'. split; [reflexivity|]. split; [discriminate|].
      intros res [= <-]. right. rewrite Hmk. f_equal.
      exact (loop_collects upstream max_arguments fetch co fuel w s st' Hrun Hgiven).
    - eexists _, st'. split; [reflexivity|].
      split; [apply report_returns_or_throws|].
      intros res Hres. left.
      pose proof (report_shape details prefix e) as Hs. rewrite Hres in Hs.
      now destruct Hs as [message ->]. }
  split; [|split].
  - rewrite get_deals_run.
    apply (Hgen _ count_only true _ _ (collected_deals status) Hco).
    intros s. unfold deals_result, collected_deals. now rewrite Hco.
  - rewrite get_persons_run. now apply (Hgen _ None false _ _ collected_persons).
  - rewrite get_organizations_run.
    now apply (Hgen _ None false _ _ collected_organizations).
Qed.

(** Over a well-formed upstream of any size the loop, resumed at a multiple
    of 500 below the ceiling with the records before it collected, ends
    with the first 10000 records. *)
Lemma loop_serves_capped fetch records fuel :
  serves upstream fetch records ->
  (Z.to_nat limit <= max_arguments)%nat ->
  forall s st,
    truthy (hasMore s) = true ->
    (exists k, 0 <= k /\ start s = 500 * k) ->
    start s < 10000 ->
    allItems s = firstn (Z.to_nat (start s)) records ->
    (0 < fuel)%nat -> 10000 <= start s + limit * Z.of_nat fuel ->
    exists s' st',
      while_hasMore upstream max_arguments fuel fetch None s st = (Returns s', st')
      /\ allItems s' = firstn (Z.to_nat 10000) records.
Proof.
  intros Hserves Hmax.
  induction fuel as [|fuel IH]; intros s st Hs (k & Hk & Hstart) Hlt Hitems Hpos Hfuel;
    [inversion Hpos|].
  assert (H0 : 0 <= start s) by lia.
  destruct (Hserves (start s) (world st) H0) as (v & w' & Hu & Hwf).
  pose proof (well_formed_no_fault max_arguments None records (start s) v Hwf Hmax)
    as Hf.
  destruct Hwf as (Hn & _ & Hdata & _ & Hflag).
  rewrite while_hasMore_step by exact Hs. cbv zeta. rewrite Hu, Hf.
  set (s1 := next_state None s (Resolved v)).
  set (st1 := record st (fetch (start s) limit) (Resolved v) w').
  assert (Hitems1 : allItems s1
                    = firstn (Z.to_nat (start s) + Z.to_nat limit) records).
  { subst s1. cbn [next_state allItems given items_of]. unfold page_items. cbv zeta.
    rewrite Hdata, Hitems. cbn [truthy isArray andb elements_of].
    apply firstn_add_skipn. }
  assert (Hmore1 : truthy (hasMore s1) = (start s + limit <? Z.of_nat (List.length records))).
  { subst s1. rewrite (truthy_hasMore_next max_arguments) by exact Hf.
    simpl. now rewrite Hn, Hflag. }
  assert (Hstart1 : start s1 = if start s + limit <? Z.of_nat (List.length records)
                               then start s + limit else start s).
  { subst s1. cbn [next_state start continues]. now rewrite Hn, Hflag. }
  unfold limit in *.
  assert (Hnat : (Z.to_nat (start s) + Z.to_nat 500)%nat = Z.to_nat (start s + 500))
    by (rewrite Z2Nat.inj_add by lia; reflexivity).
  rewrite Hnat in Hitems1.
  destruct (start s + 500 <? Z.of_nat (List.length records)) eqn:Hcmp.
  - apply Z.ltb_lt in Hcmp.
    destruct (10000 <=? start s1) eqn:Hc.
    + apply Z.leb_le in Hc. exists s1, st1. split; [reflexivity|].
      rewrite Hitems1. f_equal. lia.
    + apply Z.leb_gt in Hc.
      assert (Hk1 : exists k1, 0 <= k1 /\ start s1 = 500 * k1) by (exists (k + 1); lia).
      assert (H4 : allItems s1 = firstn (Z.to_nat (start s1)) records)
        by (now rewrite Hitems1, Hstart1).
      assert (H5 : (0 < fuel)%nat) by lia.
      assert (H6 : 10000 <= start s1 + 500 * Z.of_nat fuel) by lia.
      exact (IH s1 st1 Hmore1 Hk1 Hc H4 H5 H6).
  - apply Z.ltb_ge in Hcmp.
    exists s1, st1. split.
    + destruct (10000 <=? start s1); [reflexivity|].
      apply while_hasMore_done. exact Hmore1.
    + rewrite Hitems1, !firstn_all2 by lia. reflexivity.
Qed.

(** X4. Over an upstream that serves a dataset of any size in well-formed
    pages, get-deals returns the first 10000 records and no more, as a
    result that is not an error: a larger dataset is cut at the ceiling
    without any sign of it in the result (a call is taken to spread the
    500 items of a full page). *)
Theorem get_deals_returns_first_10000 fuel status w records :
  (20 <= fuel)%nat ->
  (Z.to_nat limit <= max_arguments)%nat ->
  serves upstream (fun start limit => getDeals start limit (status_filter status))
         records ->
  exists st',
    get_deals upstream max_arguments fuel status None (start_in w)
    = (Returns (collected_deals status (firstn (Z.to_nat 10000) records)), st')
    /\ isError (collected_deals status (firstn (Z.to_nat 10000) records)) = None
    /\ (10000 <= Z.of_nat (List.length records) ->
        Z.of_nat (List.length (firstn (Z.to_nat 10000) records)) = 10000).
Proof.
  intros Hfuel Hmax Hserves.
  assert (H6 : 10000 <= start loop_init + limit * Z.of_nat fuel)
    by (unfold limit, loop_init; cbn [start]; lia).
  destruct (loop_serves_capped _ records fuel Hserves Hmax loop_init (start_in w)
              eq_refl (ex_intro _ 0 (conj (Z.le_refl 0) eq_refl)) eq_refl eq_refl
              ltac:(lia) H6) as (s' & st' & Hrun & Hall).
  exists st'. rewrite get_deals_run, Hrun. unfold deals_result, collected_deals.
  cbn [given]. rewrite Hall. split; [reflexivity|]. split; [reflexivity|].
  intros Hlen. rewrite firstn_length_le by lia. lia.
Qed.

(** X5. Over an upstream that serves its persons, or its organizations, in
    well-formed pages, get-persons and get-organizations return them all,
    in the order served, up to the first 10000 (a call is taken to spread
    the 500 items of a full page). *)
Theorem get_persons_and_organizations_return_records fuel w records :
  (20 <= fuel)%nat ->
  (Z.to_nat limit <= max_arguments)%nat ->
  (serves upstream getPersons records ->
   exists st',
     get_persons upstream max_arguments fuel (start_in w)
     = (Returns (collected_persons (firstn (Z.to_nat 10000) records)), st'))
  /\ (serves upstream getOrganizations records ->
      exists st',
        get_organizations upstream max_arguments fuel (start_in w)
        = (Returns (collected_organizations (firstn (Z.to_nat 10000) records)), st'))
  /\ (Z.of_nat (List.length records) <= 10000 ->
      firstn (Z.to_nat 10000) records = records).
Proof.
  intros Hfuel Hmax.
  assert (H6 : 10000 <= start loop_init + limit * Z.of_nat fuel)
    by (unfold limit, loop_init; cbn [start]; lia).
  split; [|split].
  - intros Hserves.
    destruct (loop_serves_capped _ records fuel Hserves Hmax loop_init (start_in w)
                eq_refl (ex_intro _ 0 (conj (Z.le_refl 0) eq_refl)) eq_refl eq_refl
                ltac:(lia) H6) as (s' & st' & Hrun & Hall).
    exists st'. rewrite get_persons_run, Hrun.
    unfold persons_result, collected_persons. now rewrite Hall.
  - intros Hserves.
    destruct (loop_serves_capped _ records fuel Hserves Hmax loop_init (start_in w)
                eq_refl (ex_intro _ 0 (conj (Z.le_refl 0) eq_refl)) eq_refl eq_refl
                ltac:(lia) H6) as (s' & st' & Hrun & Hall).
    exists st'. rewrite get_organizations_run, Hrun.
    unfold organizations_result, collected_organizations. now rewrite Hall.
  - intros Hlen. apply firstn_all2. lia.
Qed.

(** A page that resolves to [null] or [undefined] ends the loop with the
    [TypeError] of reading its [success]. *)
Lemma loop_null_response fetch count_only fuel w o st' c v :
  (20 <= fuel)%nat ->
  while_hasMore upstream max_arguments fuel fetch count_only loop_init (start_in w)
  = (o, st') ->
  In (c, Resolved v) (trace st') ->
  nullish v = true ->
  o = Throws (cannot_read v "success")
  /\ exists evs, trace st' = evs ++ [(c, Resolved v)].
Proof.
  intros Hfuel Hrun Hin Hn.
  pose proof (loop_total upstream max_arguments fetch count_only fuel (start_in w) Hfuel)
    as Hterm.
  rewrite Hrun in Hterm.
  destruct (loop_shape upstream max_arguments fetch count_only fuel loop_init _ _ _
              eq_refl Hrun Hterm)
    as (evs & last & Htr & _ & Hall & _ & _ & _ & Hend).
  cbn [start_in trace app] in Htr. rewrite Htr in Hin.
  apply in_app_or in Hin as [Hin|[->|[]]].
  { rewrite Forall_forall in Hall. apply Hall in Hin. simpl in Hin.
    rewrite Hn in Hin. discriminate. }
  split; [|now exists evs].
  destruct o as [s'|e'|]; cbn [loop_end snd fault] in Hend.
  - rewrite Hn in Hend. destruct Hend as (H & _). discriminate.
  - rewrite Hn in Hend. congruence.
  - contradiction.
Qed.

(** X6. When a page fetch of get-deals, get-persons or get-organizations
    resolves to [null] or [undefined] instead of a response, the handler
    stops there and returns its error result with the message of the
    [TypeError] raised by reading [success]; what earlier pages brought is
    not returned. *)
Theorem null_page_is_an_error fuel (i : invocation) w o st' c v :
  (20 <= fuel)%nat ->
  paginated i = true ->
  handler upstream token max_arguments fuel i (start_in w) = (o, st') ->
  In (c, Resolved v) (trace st') ->
  nullish v = true ->
  o = Returns (error_result
                 (error_prefix i ++ "Cannot read properties of " ++ nullish_name v
                  ++ " (reading 'success')"))
  /\ exists evs, trace st' = evs ++ [(c, Resolved v)].
Proof.
  intros Hfuel Hp Hrun Hin Hn.
  assert (Hgen : forall fetch co details prefix (mk : loop_state -> tool_result),
             match while_hasMore upstream max_arguments fuel fetch co loop_init
                     (start_in w) with
             | (Returns s, st1) => (Returns (mk s), st1)
             | (Throws e, st1) => (report details prefix e, st1)
             | (OutOfFuel, st1) => (OutOfFuel, st1)
             end = (o, st') ->
             o = Returns (error_result
                            (prefix ++ "Cannot read properties of " ++ nullish_name v
                             ++ " (reading 'success')"))
             /\ exists evs, trace st' = evs ++ [(c, Resolved v)]).
  { intros fetch co details prefix mk H.
    destruct (while_hasMore upstream max_arguments fuel fetch co loop_init (start_in w))
      as [o1 st1] eqn:Hloop.
    assert (st1 = st') as -> by (destruct o1; congruence).
    destruct (loop_null_response _ _ _ _ _ _ _ _ Hfuel Hloop Hin Hn) as [-> Hevs].
    split; [|exact Hevs]. injection H as <-. unfold cannot_read.
    now rewrite report_TypeError. }
  destruct i; try discriminate Hp; cbn [handler error_prefix] in *.
  - rewrite get_deals_run in Hrun. exact (Hgen _ _ _ _ _ Hrun).
  - rewrite get_persons_run in Hrun. exact (Hgen _ _ _ _ _ Hrun).
  - rewrite get_organizations_run in Hrun. exact (Hgen _ _ _ _ _ Hrun).
Qed.



(** X9. When the pipelines response holds no pipeline ([data] missing,
    [null], otherwise falsy, or an empty array), get-stages returns the
    empty list of stages as a result that is not an error, and makes no
    call besides the fetch of the pipelines. *)
Theorem get_stages_without_pipelines w response w1 :
  upstream getPipelines w = (Resolved response, w1) ->
  nullish response = false ->
  truthy (get_prop response "data") = false \/ get_prop response "data" = Arr [] ->
  get_stages upstream token max_arguments (start_in w)
  = (Returns (text_result (JSON_stringify (Arr []))),
     {| world := w1; trace := [(getPipelines, Resolved response)] |}).
Proof.
  intros Hu Hn Hdata.
  assert (Hp : logical_or (get_prop response "data") (Arr []) = Arr []).
  { unfold logical_or. destruct Hdata as [-> | ->]; reflexivity. }
  unfold get_stages, try_catch, bind, await, member. cbn [start_in world trace app].
  rewrite Hu, Hn. cbn [ret]. rewrite Hp. reflexivity.
Qed.

(** X10. When the [data] of the pipelines response is neither an array nor
    a string (an object, say), iterating over it throws: get-stages returns
    its error result, "pipelines is not iterable", and fetches no stage. *)
Theorem get_stages_pipelines_not_iterable w response w1 :
  upstream getPipelines w = (Resolved response, w1) ->
  nullish response = false ->
  truthy (get_prop response "data") = true ->
  isArray (get_prop response "data") = false ->
  (forall str, get_prop response "data" <> Str str) ->
  get_stages upstream token max_arguments (start_in w)
  = (Returns (error_result "Error fetching stages: pipelines is not iterable"),
     {| world := w1; trace := [(getPipelines, Resolved response)] |}).
Proof.
  intros Hu Hn Ht Ha Hs.
  unfold get_stages, try_catch, bind, await, member. cbn [start_in world trace app].
  rewrite Hu, Hn. cbn [ret]. unfold logical_or. rewrite Ht.
  destruct (get_prop response "data") as [| |b|n|str|l|props];
    try discriminate; try reflexivity.
  now elim (Hs str).
Qed.

Lemma fetched_stages_urls pipelines evs out e :
  fetched_stages token max_arguments pipelines evs out e ->
  map fst evs
  = map (fun pipeline => fetch_json (stages_url_of token pipeline)) (fetchable pipelines).
Proof.
  induction 1 as [|p rest e Hp|p rest r evs out e Hp _ IH]; cbn [fetchable].
  - reflexivity.
  - now rewrite Hp.
  - rewrite Hp. cbn [map fst]. now rewrite IH.
Qed.

Lemma fetchable_all pipelines :
  Forall (fun pipeline => id_fault pipeline = None) pipelines ->
  fetchable pipelines = pipelines.
Proof.
  induction 1 as [|p rest Hp _ IH]; cbn [fetchable]; [reflexivity|].
  now rewrite Hp, IH.
Qed.

(** X11. After the pipelines, get-stages fetches the stages of each
    pipeline exactly once, in the order of the pipelines, at the stages URL
    built from the pipeline's [id] and the API token, up to the first
    entry whose [id] cannot be read or printed, if there is one; it makes
    no other call.  It returns a result that is not an error when it went
    through all the pipelines, and its error result when such an entry
    stopped it. *)
Theorem get_stages_fetches_each_pipeline_once w response w1 pipelines :
  upstream getPipelines w = (Resolved response, w1) ->
  nullish response = false ->
  logical_or (get_prop response "data") (Arr []) = Arr pipelines ->
  exists res st',
    get_stages upstream token max_arguments (start_in w) = (Returns res, st')
    /\ map fst (trace st')
       = getPipelines
         :: map (fun pipeline => fetch_json (stages_url_of token pipeline))
                (fetchable pipelines)
    /\ (Forall (fun pipeline => id_fault pipeline = None) pipelines ->
        fetchable pipelines = pipelines /\ isError res = None)
    /\ (Exists (fun pipeline => id_fault pipeline <> None) pipelines ->
        isError res = Some true).
Proof.
  intros Hu Hn Hdata.
  pose proof (get_stages_run upstream max_arguments token (start_in w)) as Hrun.
  cbn [start_in world] in Hrun. rewrite Hu in Hrun.
  destruct Hrun as (o & evs & st' & Hrun & Htr & _ & _ & Hres & Hok).
  destruct (Hok response pipelines eq_refl Hn Hdata) as (out & e & -> & Hf).
  destruct (Hres response eq_refl) as (res & Hr & _).
  exists res, st'. rewrite Hrun, Hr. split; [reflexivity|]. split.
  { rewrite Htr. cbn [start_in trace app map fst]. f_equal.
    exact (fetched_stages_urls _ _ _ _ Hf). }
  pose proof (fetched_stages_end _ _ _ _ _ _ Hf) as Hend.
  destruct e as [error|]; cbn [stages_result] in Hr.
  - apply Exists_exists in Hend as (p & Hin & Hp). split.
    + intros Hall. rewrite Forall_forall in Hall. rewrite (Hall p Hin) in Hp.
      discriminate.
    + intros _.
      destruct (id_fault_reported p error false "Error fetching stages: " Hp)
        as [message Hm].
      rewrite Hm in Hr. now injection Hr as <-.
  - injection Hr as <-. split.
    + intros Hall. split; [now apply fetchable_all|reflexivity].
    + intros Hex. apply Exists_exists in Hex as (p & Hin & Hp).
      rewrite Forall_forall in Hend. now elim Hp; apply Hend.
Qed.

Lemma lookup_set_prop k x props :
  lookup k (set_prop k x props) = Some x.
Proof.
  induction props as [|[k' v] props IH]; cbn [set_prop lookup].
  - now rewrite String.eqb_refl.
  - destruct (String.eqb k k') eqn:E; cbn [lookup]; rewrite ?String.eqb_refl, ?E; auto.
Qed.

Lemma lookup_set_prop_other k k' x props :
  k' <> k ->
  lookup k' (set_prop k x props) = lookup k' props.
Proof.
  intros Hne. induction props as [|[k0 v] props IH]; cbn [set_prop lookup].
  - destruct (String.eqb_spec k' k); [contradiction|reflexivity].
  - destruct (String.eqb_spec k k0) as [->|Hk]; cbn [lookup].
    + destruct (String.eqb_spec k' k0); [contradiction|reflexivity].
    + destruct (String.eqb k' k0); [reflexivity|exact IH].
Qed.

(** X12. Tagging a stage object with its pipeline's name keeps every other
    property of the stage as it was, sets [pipeline_name] to the name, and
    replaces a [pipeline_name] the stage already had rather than adding a
    second one. *)
Theorem tag_stage_keeps_properties name props k :
  k <> "pipeline_name" ->
  get_prop (tag_stage name (Obj props)) k = get_prop (Obj props) k
  /\ get_prop (tag_stage name (Obj props)) "pipeline_name" = name
  /\ List.length (own_props (tag_stage name (Obj props)))
     = match lookup "pipeline_name" props with
       | Some _ => List.length props
       | None => S (List.length props)
       end.
Proof.
  intros Hk. unfold tag_stage. cbn [get_prop own_props].
  rewrite lookup_set_prop, (lookup_set_prop_other _ _ _ _ Hk).
  split; [reflexivity|]. split; [reflexivity|].
  induction props as [|[k0 v] props IH]; cbn [set_prop lookup List.length].
  - reflexivity.
  - destruct (String.eqb "pipeline_name" k0); cbn [List.length]; [reflexivity|].
    rewrite IH. now destruct (lookup "pipeline_name" props).
Qed.

(** X13. get-deal-history sends the caller's limit as it is, except that a
    limit of 0 is replaced by 100 like a missing one; the cursor it sends
    is always [undefined]. *)
Theorem get_deal_history_limit dealId (l : Z) w :
  map fst (trace (snd (get_deal_history upstream dealId (Some l) (start_in w))))
  = [getDealChangelog dealId undefined (Num (if l =? 0 then 100 else l))].
Proof.
  rewrite get_deal_history_run. cbv zeta.
  destruct (upstream _ (world (start_in w))) as [r w'].
  cbn [snd record trace start_in app map fst]. unfold logical_or.
  cbn [optional truthy]. now destruct (l =? 0).
Qed.

(** X14. When the changelog response holds an array of entries and its
    cursor, if it has one, can be printed, get-deal-history returns the
    entries unchanged with their number as [history_count], the deal's id,
    and the response's [next_cursor] (null when it has none), as a result
    that is not an error. *)
Theorem get_deal_history_returns_entries dealId lim w response w' entries :
  upstream (getDealChangelog dealId undefined (logical_or (optional lim) (Num 100))) w
  = (Resolved response, w') ->
  nullish response = false ->
  get_prop response "data" = Arr entries ->
  (truthy (next_cursor_of response) = true ->
   printable (next_cursor_of response) = true) ->
  fst (get_deal_history upstream dealId lim (start_in w))
  = Returns (text_result (JSON_stringify (Obj [
      ("deal_id", Num dealId);
      ("history_count", length_of entries);
      ("next_cursor",
       logical_or (opt_chain (get_prop response "additional_data") "next_cursor") null);
      ("history", Arr entries)]))).
Proof.
  intros Hu Hn Hdata Hc. rewrite get_deal_history_run. cbv zeta.
  cbn [start_in world]. rewrite Hu. cbn [fst]. unfold history_of, history_fault.
  rewrite Hn.
  assert (Hlen : data_length response = Num (Z.of_nat (List.length entries))).
  { unfold data_length. rewrite Hdata. destruct entries; reflexivity. }
  rewrite Hlen. cbn [printable ToString negb].
  assert (Hcur : truthy (next_cursor_of response)
                 && negb (printable (next_cursor_of response)) = false).
  { destruct (truthy (next_cursor_of response)); [|reflexivity].
    now rewrite (Hc eq_refl). }
  rewrite Hcur. unfold history_result. rewrite Hdata. do 4 f_equal.
  destruct entries; reflexivity.
Qed.

End More.

(** X15. A thrown plain object without a [message] that is a string (an
    API error body, say) is not recognised as an error with a message; it
    is reported as "[object Object]", unless it has a [toString] property
    of its own, in which case printing it throws a [TypeError]. *)
Theorem error_without_message_is_opaque props :
  (forall m, lookup "message" props <> Some (Str m)) ->
  isErrorWithMessage (Thrown (Obj props)) = false
  /\ getErrorMessage (Thrown (Obj props))
     = match lookup "toString" props with
       | Some _ => inr cannot_convert
       | None => inl "[object Object]"
       end.
Proof.
  intros H. unfold getErrorMessage, isErrorWithMessage.
  destruct (lookup "message" props) as [[| |b|n|m|l|ps]|] eqn:E;
    try (split; [reflexivity|]; cbn [String_thrown ToString];
         now destruct (lookup "toString" props)).
  now elim (H m).
Qed.

(** X16. The eight prompts are registered under pairwise distinct names,
    and the callback of each returns exactly one message, from the user,
    of type text. *)
Theorem prompts_are_single_user_messages :
  (forall p q, prompt_name p = prompt_name q -> p = q)
  /\ (forall p, In p registered_prompts)
  /\ (forall p, exists t,
        messages (prompt_callback p)
        = [{| role := "user"; message := {| type := "text"; text := Template t |} |}]
        /\ t <> "").
Proof.
  split; [|split].
  - intros p q; destruct p, q; intros H; try reflexivity; discriminate H.
  - intros p; destruct p; simpl; tauto.
  - intros p; destruct p; eexists; (split; [reflexivity|discriminate]).
Qed.

(** X17. The fifteen tools are registered under pairwise distinct names,
    and every invocation goes by one of them. *)
Theorem tool_names_are_distinct :
  NoDup registered_tools
  /\ List.length registered_tools = 15%nat
  /\ forall i, In (tool_name i) registered_tools.
Proof.
  split; [|split].
  - unfold registered_tools.
    repeat (constructor; [simpl; intuition discriminate|]). constructor.
  - reflexivity.
  - intros i; destruct i; simpl; tauto.
Qed.

Lemma serving_all_serves records :
  serves (serving_all records) (fun start limit => getDeals start limit "all_not_deleted")
         records
  /\ serves (serving_all records) getPersons records
  /\ serves (serving_all records) getOrganizations records.
Proof.
  repeat split; intros start w _; exists (page_of records start limit), w;
    (split; [reflexivity|apply page_of_well_formed]).
Qed.

Lemma paginated_request_sequence_witness :
  (20 <= 20)%nat
  /\ exists o st' n,
      get_deals rejecting_unprintable 1000 20 (Some won) None (start_in tt) = (o, st')
      /\ o <> OutOfFuel
      /\ (1 <= n <= 20)%nat
      /\ map fst (trace st') = offsets (fun start limit => getDeals start limit "won") 0 n.
Proof.
  split; [exact (le_n 20)|].
  exact (proj1 (paginated_request_sequence rejecting_unprintable 1000 20 (Some won) None
                  tt (le_n 20))).
Defined.

Lemma count_only_makes_the_same_calls_witness :
  (20 <= 20)%nat
  /\ (forall c w' v,
        fst (flaky c w') = Resolved v -> (List.length (page_items v) <= 1000)%nat)
  /\ exists o1 o2 st',
      get_deals flaky 1000 20 None (Some true) (start_in 0%nat) = (o1, st')
      /\ get_deals flaky 1000 20 None None (start_in 0%nat) = (o2, st')
      /\ match o1, o2 with
         | Returns res1, Returns res2 =>
             isError res1 = isError res2 /\ (isError res1 = Some true -> res1 = res2)
         | Throws e1, Throws e2 => e1 = e2
         | _, _ => False
         end.
Proof.
  assert (H2 : forall c w' v,
             fst (flaky c w') = Resolved v ->
             (List.length (page_items v) <= 1000)%nat).
  { intros c w' v. unfold flaky. cbn [fst].
    destruct (w' =? 2)%nat; intros [= <-]. apply Nat.leb_le. reflexivity. }
  split; [exact (le_n 20)|]. split; [exact H2|].
  exact (count_only_makes_the_same_calls flaky 1000 20 None (Some true) None 0%nat
           (le_n 20) H2).
Defined.

Lemma collected_items_follow_the_pages_witness :
  (20 <= 20)%nat
  /\ given None = false
  /\ exists o st',
      get_deals no_data_then_one 1000 20 None None (start_in tt) = (o, st')
      /\ o <> OutOfFuel
      /\ forall res, o = Returns res ->
           isError res = Some true
           \/ res = collected_deals None (items_fetched (trace st')).
Proof.
  split; [exact (le_n 20)|]. split; [reflexivity|].
  exact (proj1 (collected_items_follow_the_pages no_data_then_one 1000 20 None None tt
                  (le_n 20) eq_refl)).
Defined.

Lemma get_deals_returns_first_10000_witness :
  (20 <= 20)%nat
  /\ (Z.to_nat limit <= 1000)%nat
  /\ serves (serving_all (numbered (Z.to_nat 10500)))
            (fun start limit => getDeals start limit (status_filter None))
            (numbered (Z.to_nat 10500))
  /\ exists st',
      get_deals (serving_all (numbered (Z.to_nat 10500))) 1000 20 None None (start_in tt)
      = (Returns (collected_deals None (firstn (Z.to_nat 10000) (numbered (Z.to_nat 10500)))), st')
      /\ isError (collected_deals None (firstn (Z.to_nat 10000) (numbered (Z.to_nat 10500)))) = None
      /\ (10000 <= Z.of_nat (List.length (numbered (Z.to_nat 10500))) ->
          Z.of_nat (List.length (firstn (Z.to_nat 10000) (numbered (Z.to_nat 10500)))) = 10000).
Proof.
  assert (H2 : (Z.to_nat limit <= 1000)%nat) by (apply Nat.leb_le; reflexivity).
  split; [exact (le_n 20)|]. split; [exact H2|].
  split; [exact (proj1 (serving_all_serves (numbered (Z.to_nat 10500))))|].
  exact (get_deals_returns_first_10000 (serving_all (numbered (Z.to_nat 10500))) 1000 20
           None tt (numbered (Z.to_nat 10500)) (le_n 20) H2
           (proj1 (serving_all_serves (numbered (Z.to_nat 10500))))).
Defined.

Lemma get_persons_and_organizations_return_records_witness :
  (20 <= 20)%nat
  /\ (Z.to_nat limit <= 1000)%nat
  /\ serves (serving_all (numbered 700)) getPersons (numbered 700)
  /\ serves (serving_all (numbered 700)) getOrganizations (numbered 700)
  /\ Z.of_nat (List.length (numbered 700)) <= 10000
  /\ (exists st',
        get_persons (serving_all (numbered 700)) 1000 20 (start_in tt)
        = (Returns (collected_persons (firstn (Z.to_nat 10000) (numbered 700))), st'))
  /\ (exists st',
        get_organizations (serving_all (numbered 700)) 1000 20 (start_in tt)
        = (Returns (collected_organizations (firstn (Z.to_nat 10000) (numbered 700))),
           st'))
  /\ firstn (Z.to_nat 10000) (numbered 700) = numbered 700.
Proof.
  assert (H2 : (Z.to_nat limit <= 1000)%nat) by (apply Nat.leb_le; reflexivity).
  assert (H4 : Z.of_nat (List.length (numbered 700)) <= 10000) by discriminate.
  destruct (serving_all_serves (numbered 700)) as (_ & Hp & Ho).
  destruct (get_persons_and_organizations_return_records
              (serving_all (numbered 700)) 1000 20 tt (numbered 700) (le_n 20) H2)
    as (Hpersons & Horgs & Hall).
  split; [exact (le_n 20)|]. split; [exact H2|]. split; [exact Hp|]. split; [exact Ho|].
  split; [exact H4|]. split; [exact (Hpersons Hp)|]. split; [exact (Horgs Ho)|].
  exact (Hall H4).
Defined.

Lemma null_page_is_an_error_witness :
  let run := handler answering_null "token" 1000 20 Get_persons (start_in tt) in
  (20 <= 20)%nat
  /\ paginated Get_persons = true
  /\ handler answering_null "token" 1000 20 Get_persons (start_in tt)
     = (fst run, snd run)
  /\ In (getPersons 0 500, Resolved null) (trace (snd run))
  /\ nullish null = true
  /\ fst run
     = Returns (error_result
         "Error fetching persons: Cannot read properties of null (reading 'success')")
  /\ exists evs, trace (snd run) = evs ++ [(getPersons 0 500, Resolved null)].
Proof.
  intros run.
  assert (H3 : handler answering_null "token" 1000 20 Get_persons (start_in tt)
               = (fst run, snd run)) by reflexivity.
  assert (H4 : In (getPersons 0 500, Resolved null) (trace (snd run)))
    by (left; reflexivity).
  split; [exact (le_n 20)|]. split; [reflexivity|]. split; [exact H3|].
  split; [exact H4|]. split; [reflexivity|].
  exact (null_page_is_an_error answering_null 1000 "token" 20 Get_persons tt
           (fst run) (snd run) (getPersons 0 500) null
           (le_n 20) eq_refl H3 H4 eq_refl).
Defined.



Lemma get_stages_without_pipelines_witness :
  let response := Obj [("success", Bool true); ("data", null)] in
  no_pipelines getPipelines tt = (Resolved response, tt)
  /\ nullish response = false
  /\ (truthy (get_prop response "data") = false \/ get_prop response "data" = Arr [])
  /\ get_stages no_pipelines "token" 1000 (start_in tt)
     = (Returns (text_result (JSON_stringify (Arr []))),
        {| world := tt; trace := [(getPipelines, Resolved response)] |}).
Proof.
  intros response.
  split; [reflexivity|]. split; [reflexivity|]. split; [left; reflexivity|].
  exact (get_stages_without_pipelines no_pipelines 1000 "token" tt response tt
           eq_refl eq_refl (or_introl eq_refl)).
Defined.

Lemma get_stages_pipelines_not_iterable_witness :
  let response := Obj [("success", Bool true); ("data", Obj [("1", pipeline_A)])] in
  pipelines_as_object getPipelines tt = (Resolved response, tt)
  /\ nullish response = false
  /\ truthy (get_prop response "data") = true
  /\ isArray (get_prop response "data") = false
  /\ (forall str, get_prop response "data" <> Str str)
  /\ get_stages pipelines_as_object "token" 1000 (start_in tt)
     = (Returns (error_result "Error fetching stages: pipelines is not iterable"),
        {| world := tt; trace := [(getPipelines, Resolved response)] |}).
Proof.
  intros response.
  assert (H5 : forall str, get_prop response "data" <> Str str)
    by (intros str; discriminate).
  split; [reflexivity|]. split; [reflexivity|]. split; [reflexivity|].
  split; [reflexivity|]. split; [exact H5|].
  exact (get_stages_pipelines_not_iterable pipelines_as_object 1000 "token" tt response tt
           eq_refl eq_refl eq_refl eq_refl H5).
Defined.

Lemma get_stages_fetches_each_pipeline_once_witness :
  let response := Obj [("success", Bool true);
                       ("data", Arr [pipeline_A; null; pipeline_B])] in
  pipelines_with_null getPipelines tt = (Resolved response, tt)
  /\ nullish response = false
  /\ logical_or (get_prop response "data") (Arr []) = Arr [pipeline_A; null; pipeline_B]
  /\ Exists (fun pipeline => id_fault pipeline <> None) [pipeline_A; null; pipeline_B]
  /\ exists res st',
      get_stages pipelines_with_null "token" 1000 (start_in tt) = (Returns res, st')
      /\ map fst (trace st')
         = [getPipelines;
            fetch_json "https://api.pipedrive.com/api/v2/stages?pipeline_id=1&api_token=token"]
      /\ isError res = Some true.
Proof.
  intros response.
  assert (H4 : Exists (fun pipeline => id_fault pipeline <> None)
                      [pipeline_A; null; pipeline_B]).
  { apply Exists_cons_tl. apply Exists_cons_hd. discriminate. }
  split; [reflexivity|]. split; [reflexivity|]. split; [reflexivity|].
  split; [exact H4|].
  destruct (get_stages_fetches_each_pipeline_once pipelines_with_null 1000 "token" tt
              response tt [pipeline_A; null; pipeline_B] eq_refl eq_refl eq_refl)
    as (res & st' & Hrun & Htr & _ & Herr).
  exists res, st'. split; [exact Hrun|]. split; [exact Htr|exact (Herr H4)].
Defined.

Lemma tag_stage_keeps_properties_witness :
  let props := [("id", Num 7); ("pipeline_name", Str "old")] in
  "id" <> "pipeline_name"
  /\ get_prop (tag_stage (Str "Sales") (Obj props)) "id" = Num 7
  /\ get_prop (tag_stage (Str "Sales") (Obj props)) "pipeline_name" = Str "Sales"
  /\ List.length (own_props (tag_stage (Str "Sales") (Obj props))) = 2%nat.
Proof.
  intros props.
  assert (H : "id" <> "pipeline_name") by discriminate.
  split; [exact H|].
  exact (tag_stage_keeps_properties (Str "Sales") props "id" H).
Defined.

Lemma get_deal_history_returns_entries_witness :
  let response := Obj [("success", Bool true);
                       ("data", Arr [Str "created"; Str "stage changed"]);
                       ("additional_data", Obj [("next_cursor", Str "abc")])] in
  changelog_page (getDealChangelog 42 undefined (logical_or (optional (Some 10)) (Num 100)))
                 tt
  = (Resolved response, tt)
  /\ nullish response = false
  /\ get_prop response "data" = Arr [Str "created"; Str "stage changed"]
  /\ (truthy (next_cursor_of response) = true ->
      printable (next_cursor_of response) = true)
  /\ fst (get_deal_history changelog_page 42 (Some 10) (start_in tt))
     = Returns (text_result (JSON_stringify (Obj [
         ("deal_id", Num 42);
         ("history_count", Num 2);
         ("next_cursor", Str "abc");
         ("history", Arr [Str "created"; Str "stage changed"])]))).
Proof.
  intros response.
  assert (H4 : truthy (next_cursor_of response) = true ->
               printable (next_cursor_of response) = true) by reflexivity.
  split; [reflexivity|]. split; [reflexivity|]. split; [reflexivity|].
  split; [exact H4|].
  exact (get_deal_history_returns_entries changelog_page 42 (Some 10) tt response tt
           [Str "created"; Str "stage changed"] eq_refl eq_refl eq_refl H4).
Defined.

Lemma error_without_message_is_opaque_witness :
  let props := [("error", Str "Unauthorized"); ("message", Num 401)] in
  (forall m, lookup "message" props <> Some (Str m))
  /\ isErrorWithMessage (Thrown (Obj props)) = false
  /\ getErrorMessage (Thrown (Obj props)) = inl "[object Object]".
Proof.
  intros props.
  assert (H : forall m, lookup "message" props <> Some (Str m))
    by (intros m; discriminate).
  split; [exact H|].
  exact (error_without_message_is_opaque props H).
Defined.
